(** * HR ticket triage: the browser front end and the ticket lifecycle

    A shallow embedding of the two front-end scripts of the repository
    ([frontend/js/app.js], the submission form, and the dashboard script)
    together with a model of the ticket lifecycle the specification
    describes for the Flask back end.

    Conventions.
    - JavaScript strings are Rocq byte strings holding the text in
      UTF-8, a lone surrogate as its three bytes; [substring] and
      [length] count UTF-16 code units over the byte sequences.
    - An [async] function is a state transformer over a [World]: the page
      state, the log of observable events and the answers of the
      environment (network, dialogs).  It completes normally, throws, or
      stays suspended on a promise that never settles.
    - Each handler run is modelled on its own; interleavings of several
      handlers are outside the model. *)

From Stdlib Require Import ZArith QArith String Ascii List Lia Floats.
From stdpp Require Import gmap strings list fin_maps.

Open Scope string_scope.
Open Scope list_scope.
Set Warnings "-register-all".

(** ** JavaScript values *)

Module Js.

(** Values that come out of [JSON.parse], plus [undefined]. *)
Inductive JsVal : Type :=
| JUndefined
| JNull
| JBool (b : bool)
| JNum (q : Q)
| JStr (s : string)
| JArr (items : list JsVal)
| JObj (props : list (string * JsVal)).

(** A value that the REST schema types but that the scripts still guard
    against being absent. *)
Inductive Nullable (A : Type) : Type :=
| Undefined
| Null
| Val (a : A).
Arguments Undefined {A}.
Arguments Null {A}.
Arguments Val {A} a.

(** Thrown values: an error object with its [name] and [message]. *)
Record JsError : Type := MkError { err_name : string; err_message : string }.

Definition TypeError (msg : string) : JsError := MkError "TypeError" msg.
Definition SyntaxError (msg : string) : JsError := MkError "SyntaxError" msg.
Definition Error (msg : string) : JsError := MkError "Error" msg.

(** ToBoolean. *)
Definition truthy (v : JsVal) : bool :=
  match v with
  | JUndefined | JNull => false
  | JBool b => b
  | JNum q => negb (Qeq_bool q 0)
  | JStr s => negb (String.eqb s "")
  | JArr _ | JObj _ => true
  end.

Definition truthyStr (v : Nullable string) : bool :=
  match v with
  | Val s => negb (String.eqb s "")
  | _ => false
  end.

(** ToBoolean of a number, an IEEE double: zero and NaN are falsy. *)
Definition truthyNum (v : Nullable float) : bool :=
  match v with
  | Val f => PrimFloat.eqb f f && negb (PrimFloat.eqb f 0%float)
  | _ => false
  end.

(** [a || b] *)
Definition or_else (a b : JsVal) : JsVal := if truthy a then a else b.

Fixpoint lookupProp (k : string) (props : list (string * JsVal)) : JsVal :=
  match props with
  | [] => JUndefined
  | (k', v) :: rest => if String.eqb k k' then v else lookupProp k rest
  end.

(** [v.k] for the property names the scripts read ([status], [reason],
    [id]): a [TypeError] on [null] and [undefined], the own property of an
    object, [undefined] on every other value. *)
Definition getProp (v : JsVal) (k : string) : JsError + JsVal :=
  match v with
  | JUndefined => inl (TypeError ("Cannot read properties of undefined (reading '" +:+ k +:+ "')"))
  | JNull => inl (TypeError ("Cannot read properties of null (reading '" +:+ k +:+ "')"))
  | JObj props => inr (lookupProp k props)
  | _ => inr JUndefined
  end.

(** [v === 'lit'] *)
Definition strictEqStr (v : JsVal) (lit : string) : bool :=
  match v with
  | JStr s => String.eqb s lit
  | _ => false
  end.

(** Text assigned to [textContent]: a literal, a template literal that
    ends in an interpolated value, or a value assigned as it is.  The
    string conversion of the value is left symbolic. *)
Inductive Text : Type :=
| TLit (s : string)
| TTemplate (prefix : string) (v : JsVal)
| TValue (v : JsVal).

End Js.
Export Js.

(** ** The environment: network, dialogs, observable events *)

Module Env.

(** The argument of [fetch].  [body] is the value handed to
    [JSON.stringify]; the request carries its JSON text. *)
Record Request : Type := MkRequest {
  url : string;
  method : string;
  headers : list (string * string);
  body : option JsVal
}.

(** What [response.json()] settles to; [None] is a body that does not
    parse.  [P] is the type of the parsed payload. *)
Record Response (P : Type) : Type := MkResponse {
  status : Z;
  json : option P
}.
Arguments MkResponse {P} status json.
Arguments status {P} r.
Arguments json {P} r.

(** [response.ok]: the status is in the range 200-299. *)
Definition ok {P} (r : Response P) : bool :=
  (200 <=? status r)%Z && (status r <=? 299)%Z.

(** The promise returned by [fetch]: fulfilled with a response (of any
    status), rejected (network error, abort, time-out of the browser), or
    never settled. *)
Inductive FetchOutcome (P : Type) : Type :=
| Fulfilled (r : Response P)
| Rejected (e : JsError)
| Pending.
Arguments Fulfilled {P} r.
Arguments Rejected {P} e.
Arguments Pending {P}.

Definition settled {P} (o : FetchOutcome P) : bool :=
  match o with
  | Pending => false
  | _ => true
  end.

(** The functions the scripts hand to [setTimeout]. *)
Inductive Callback : Type :=
| CbCheckAIHealth.

Inductive LogArg : Type :=
| ArgStr (s : string)
| ArgErr (e : JsError).

Inductive Event : Type :=
| EvPreventDefault
| EvFetch (r : Request)
| EvConsoleLog (args : list LogArg)
| EvConsoleWarn (args : list LogArg)
| EvConsoleError (args : list LogArg)
| EvAlert (msg : string)
| EvConfirm (msg : string)
| EvSetTimeout (cb : Callback) (ms : Z).

(** A world: the page state [D], the answers [N] of the environment and
    the events so far, newest first. *)
Record World (D N : Type) : Type := MkWorld {
  dom : D;
  net : N;
  trace : list Event
}.
Arguments MkWorld {D N} dom net trace.
Arguments dom {D N} w.
Arguments net {D N} w.
Arguments trace {D N} w.

(** The events in the order they happened. *)
Definition history {D N} (w : World D N) : list Event := rev (trace w).

Definition fetchesOf (evs : list Event) : list Request :=
  flat_map (fun e => match e with EvFetch r => [r] | _ => [] end) evs.

Definition timersOf (evs : list Event) : list (Callback * Z) :=
  flat_map (fun e => match e with EvSetTimeout cb ms => [(cb, ms)] | _ => [] end) evs.

Definition alertsOf (evs : list Event) : list string :=
  flat_map (fun e => match e with EvAlert m => [m] | _ => [] end) evs.

End Env.
Export Env.

(** ** Effects of an [async] function *)

Module Eff.

Inductive Completion (A : Type) : Type :=
| Normal (a : A)
| Throw (e : JsError)
| Hang.
Arguments Normal {A} a.
Arguments Throw {A} e.
Arguments Hang {A}.

Section Monad.
Context {D N : Type}.

Definition Eff (A : Type) : Type := World D N -> Completion A * World D N.

Definition ret {A} (a : A) : Eff A := fun w => (Normal a, w).

Definition throw {A} (e : JsError) : Eff A := fun w => (Throw e, w).

Definition bind {A B} (m : Eff A) (k : A -> Eff B) : Eff B :=
  fun w =>
    match m w with
    | (Normal a, w') => k a w'
    | (Throw e, w') => (Throw e, w')
    | (Hang, w') => (Hang, w')
    end.

(** [try { m } catch (error) { h error }]: a suspended body never
    reaches the handler. *)
Definition tryCatch {A} (m : Eff A) (h : JsError -> Eff A) : Eff A :=
  fun w =>
    match m w with
    | (Throw e, w') => h e w'
    | r => r
    end.

(** [try { m } finally { f }]: [f] runs after a normal or an abrupt
    completion of [m], and not while [m] is suspended. *)
Definition tryFinally {A} (m : Eff A) (f : Eff unit) : Eff A :=
  fun w =>
    match m w with
    | (Hang, w') => (Hang, w')
    | (c, w') =>
        match f w' with
        | (Normal _, w'') => (c, w'')
        | (Throw e, w'') => (Throw e, w'')
        | (Hang, w'') => (Hang, w'')
        end
    end.

Definition liftE {A} (r : JsError + A) : Eff A :=
  match r with
  | inl e => throw e
  | inr a => ret a
  end.

Definition emit (e : Event) : Eff unit :=
  fun w => (Normal tt, MkWorld (dom w) (net w) (e :: trace w)).

Definition getDom : Eff D := fun w => (Normal (dom w), w).

Definition modifyDom (f : D -> D) : Eff unit :=
  fun w => (Normal tt, MkWorld (f (dom w)) (net w) (trace w)).

(** [await p] for the promise of a [fetch] answered by [o]. *)
Definition awaitFetch {P} (req : Request) (answer : N -> FetchOutcome P)
  : Eff (Response P) :=
  fun w =>
    let w' := MkWorld (dom w) (net w) (EvFetch req :: trace w) in
    match answer (net w) with
    | Fulfilled r => (Normal r, w')
    | Rejected e => (Throw e, w')
    | Pending => (Hang, w')
    end.

(** [await response.json()] *)
Definition awaitJson {P} (r : Response P) : Eff P :=
  match json r with
  | Some v => ret v
  | None => throw (SyntaxError "Unexpected token in JSON")
  end.

Definition console_log (args : list LogArg) : Eff unit := emit (EvConsoleLog args).
Definition console_warn (args : list LogArg) : Eff unit := emit (EvConsoleWarn args).
Definition console_error (args : list LogArg) : Eff unit := emit (EvConsoleError args).
Definition alert (msg : string) : Eff unit := emit (EvAlert msg).
Definition setTimeout (cb : Callback) (ms : Z) : Eff unit := emit (EvSetTimeout cb ms).

End Monad.

Arguments Eff : clear implicits.

Declare Scope eff_scope.
Delimit Scope eff_scope with eff.
Notation "x <- m ;; k" := (bind m (fun x => k))
  (at level 100, m at next level, right associativity) : eff_scope.
Notation "m ;;; k" := (bind m (fun _ => k))
  (at level 100, right associativity) : eff_scope.

End Eff.
Export Eff.

(** ** [frontend/js/app.js]: the submission form *)

Module App.

Definition API_BASE : string := "".
Definition N8N_WEBHOOK_URL : string := "http://localhost:5678/webhook/hr-ticket".

(** The [#aiStatus] element with its [.status-icon] and [.status-text]
    children.  The page markup is not part of the scripts: when the
    element exists its two children are taken to exist as well. *)
Record AiStatusEl : Type := MkAiStatusEl {
  statusIcon_textContent : Text;
  statusText_textContent : Text;
  classList : list string
}.

(** The four named controls of [#ticketForm], as [FormData.get] reads
    them. *)
Record TicketForm : Type := MkTicketForm {
  employee_name : JsVal;
  employee_email : JsVal;
  subject : JsVal;
  description : JsVal
}.

(** The part of the page the script reads and writes, and its one
    module-level variable [aiConnected]. *)
Record Page : Type := MkPage {
  aiStatus : option AiStatusEl;
  submitBtn_disabled : bool;
  btnText_textContent : Text;
  btnText_display : string;
  btnLoading_display : string;
  successModal_display : string;
  ticketIdSpan_textContent : Text;
  aiConnected : bool;
  form_values : TicketForm;
  form_defaults : TicketForm
}.

(** The servers, seen from the page: the answer to each request. *)
Definition Network : Type := Request -> FetchOutcome JsVal.

Definition M : Type -> Type := Eff Page Network.

Definition with_aiStatus (f : AiStatusEl -> AiStatusEl) (p : Page) : Page :=
  MkPage (option_map f (aiStatus p)) (submitBtn_disabled p) (btnText_textContent p)
    (btnText_display p) (btnLoading_display p) (successModal_display p)
    (ticketIdSpan_textContent p) (aiConnected p) (form_values p) (form_defaults p).

Definition with_submitBtn_disabled (b : bool) (p : Page) : Page :=
  MkPage (aiStatus p) b (btnText_textContent p)
    (btnText_display p) (btnLoading_display p) (successModal_display p)
    (ticketIdSpan_textContent p) (aiConnected p) (form_values p) (form_defaults p).

Definition with_btnText_textContent (t : Text) (p : Page) : Page :=
  MkPage (aiStatus p) (submitBtn_disabled p) t
    (btnText_display p) (btnLoading_display p) (successModal_display p)
    (ticketIdSpan_textContent p) (aiConnected p) (form_values p) (form_defaults p).

Definition with_btnText_display (s : string) (p : Page) : Page :=
  MkPage (aiStatus p) (submitBtn_disabled p) (btnText_textContent p)
    s (btnLoading_display p) (successModal_display p)
    (ticketIdSpan_textContent p) (aiConnected p) (form_values p) (form_defaults p).

Definition with_btnLoading_display (s : string) (p : Page) : Page :=
  MkPage (aiStatus p) (submitBtn_disabled p) (btnText_textContent p)
    (btnText_display p) s (successModal_display p)
    (ticketIdSpan_textContent p) (aiConnected p) (form_values p) (form_defaults p).

Definition with_successModal_display (s : string) (p : Page) : Page :=
  MkPage (aiStatus p) (submitBtn_disabled p) (btnText_textContent p)
    (btnText_display p) (btnLoading_display p) s
    (ticketIdSpan_textContent p) (aiConnected p) (form_values p) (form_defaults p).

Definition with_ticketIdSpan_textContent (t : Text) (p : Page) : Page :=
  MkPage (aiStatus p) (submitBtn_disabled p) (btnText_textContent p)
    (btnText_display p) (btnLoading_display p) (successModal_display p)
    t (aiConnected p) (form_values p) (form_defaults p).

Definition with_aiConnected (b : bool) (p : Page) : Page :=
  MkPage (aiStatus p) (submitBtn_disabled p) (btnText_textContent p)
    (btnText_display p) (btnLoading_display p) (successModal_display p)
    (ticketIdSpan_textContent p) b (form_values p) (form_defaults p).

Definition with_form_values (f : TicketForm) (p : Page) : Page :=
  MkPage (aiStatus p) (submitBtn_disabled p) (btnText_textContent p)
    (btnText_display p) (btnLoading_display p) (successModal_display p)
    (ticketIdSpan_textContent p) (aiConnected p) f (form_defaults p).

Definition setStatusIcon (t : Text) : M unit :=
  modifyDom (with_aiStatus (fun el =>
    MkAiStatusEl t (statusText_textContent el) (classList el))).

Definition setStatusText (t : Text) : M unit :=
  modifyDom (with_aiStatus (fun el =>
    MkAiStatusEl (statusIcon_textContent el) t (classList el))).

(** [aiStatus.classList.add(c)]: a token list holds each token once. *)
Definition classList_add (c : string) : M unit :=
  modifyDom (with_aiStatus (fun el =>
    MkAiStatusEl (statusIcon_textContent el) (statusText_textContent el)
      (if existsb (String.eqb c) (classList el) then classList el
       else classList el ++ [c]))).

Local Open Scope eff_scope.

(** [fetch('/api/ai/health', { timeout: 8000 })]: [timeout] is no member
    of the [fetch] options, so the request is a plain GET. *)
Definition healthRequest : Request := MkRequest "/api/ai/health" "GET" [] None.

(** Check AI health on page load. *)
Definition checkAIHealth : M unit :=
  p <- getDom ;;
  match aiStatus p with
  | None => ret tt
  | Some _ =>
      tryCatch
        (response <- awaitFetch healthRequest (fun n : Network => n healthRequest) ;;
         health <- awaitJson response ;;
         st <- liftE (getProp health "status") ;;
         if strictEqStr st "connected" then
           (setStatusIcon (TLit "🟢") ;;;
            setStatusText (TLit "AI Connected") ;;;
            classList_add "connected" ;;;
            modifyDom (with_submitBtn_disabled false) ;;;
            modifyDom (with_aiConnected true))
         else
           (st' <- liftE (getProp health "status") ;;
            if strictEqStr st' "loading" then
              (setStatusIcon (TLit "🟡") ;;;
               setStatusText (TLit "AI Model Loading...") ;;;
               classList_add "loading" ;;;
               setTimeout CbCheckAIHealth 5000)
            else
              (setStatusIcon (TLit "🔴") ;;;
               reason <- liftE (getProp health "reason") ;;
               setStatusText
                 (TTemplate "AI Unavailable: " (or_else reason (JStr "Unknown error"))) ;;;
               classList_add "error" ;;;
               modifyDom (with_submitBtn_disabled false) ;;;
               modifyDom (with_btnText_textContent (TLit "Submit (AI Offline)")))))
        (fun error =>
           setStatusIcon (TLit "🔴") ;;;
           setStatusText (TLit "AI Unavailable: Connection error") ;;;
           classList_add "error" ;;;
           modifyDom (with_submitBtn_disabled false) ;;;
           modifyDom (with_btnText_textContent (TLit "Submit (AI Offline)")))
  end.

(** Toggle loading state. *)
Definition setLoading (isLoading : bool) : M unit :=
  modifyDom (with_submitBtn_disabled isLoading) ;;;
  modifyDom (with_btnText_display (if isLoading then "none" else "inline")) ;;;
  modifyDom (with_btnLoading_display (if isLoading then "inline-flex" else "none")).

(** Show success modal. *)
Definition showSuccess (ticketId : JsVal) : M unit :=
  modifyDom (with_ticketIdSpan_textContent (TValue ticketId)) ;;;
  modifyDom (with_successModal_display "flex").

(** Close success modal. *)
Definition closeModal : M unit :=
  modifyDom (with_successModal_display "none").

(** [form.reset()] *)
Definition form_reset : M unit :=
  modifyDom (fun p => with_form_values (form_defaults p) p).

Definition createRequest (data : JsVal) : Request :=
  MkRequest (API_BASE +:+ "/api/tickets") "POST"
    [("Content-Type", "application/json")] (Some data).

(** Create ticket via backend API. *)
Definition createTicket (data : JsVal) : M JsVal :=
  response <- awaitFetch (createRequest data)
                (fun n : Network => n (createRequest data)) ;;
  if negb (ok response) then throw (Error "Failed to create ticket")
  else awaitJson response.

Definition webhookRequest (ticket : JsVal) : Request :=
  MkRequest N8N_WEBHOOK_URL "POST"
    [("Content-Type", "application/json")] (Some ticket).

(** Trigger n8n workflow for AI classification.  The result is the
    response, or [None] for the [undefined] of the handled failure. *)
Definition triggerN8nWorkflow (ticket : JsVal) : M (option (Response JsVal)) :=
  tryCatch
    (response <- awaitFetch (webhookRequest ticket)
                   (fun n : Network => n (webhookRequest ticket)) ;;
     console_log [ArgStr "n8n workflow triggered successfully"] ;;;
     ret (Some response))
    (fun error =>
       console_warn [ArgStr "Could not reach n8n webhook:"; ArgStr (err_message error)] ;;;
       console_log [ArgStr "Ticket created locally. n8n classification pending."] ;;;
       ret None).

Definition ticketDataOf (f : TicketForm) : JsVal :=
  JObj [("employee_name", employee_name f);
        ("employee_email", employee_email f);
        ("subject", subject f);
        ("description", description f)].

(** Handle form submission. *)
Definition onSubmit : M unit :=
  emit EvPreventDefault ;;;
  setLoading true ;;;
  p <- getDom ;;
  let ticketData := ticketDataOf (form_values p) in
  tryFinally
    (tryCatch
       (ticket <- createTicket ticketData ;;
        _ <- triggerN8nWorkflow ticket ;;
        ticketId <- liftE (getProp ticket "id") ;;
        showSuccess ticketId ;;;
        form_reset)
       (fun error =>
          console_error [ArgStr "Error submitting ticket:"; ArgErr error] ;;;
          alert "Failed to submit ticket. Please try again."))
    (setLoading false).

(** The network [n], with every request to the webhook answered by [o]. *)
Definition withWebhook (o : FetchOutcome JsVal) (n : Network) : Network :=
  fun req => if String.eqb (url req) N8N_WEBHOOK_URL then o else n req.

End App.

(** ** HTML text *)

Module Html.

(** The line feed and the double quote of the template literals. *)
Definition nl : string := String (ascii_of_nat 10) "".
Definition dq : string := String (ascii_of_nat 34) "".

(** The two bytes of U+00A0 (no-break space) in UTF-8. *)
Definition nbsp_lead : ascii := ascii_of_nat 194.
Definition nbsp_trail : ascii := ascii_of_nat 160.

(** [div.innerHTML] of an element whose only child is the text node [s]:
    the HTML fragment serialisation escapes [&], U+00A0, [<] and [>] of a
    text node, and nothing else. *)
Fixpoint serializeText (s : string) : string :=
  match s with
  | EmptyString => ""
  | String c rest =>
      if Ascii.eqb c "&" then "&amp;" +:+ serializeText rest
      else if Ascii.eqb c "<" then "&lt;" +:+ serializeText rest
      else if Ascii.eqb c ">" then "&gt;" +:+ serializeText rest
      else if Ascii.eqb c nbsp_lead then
        match rest with
        | String c' rest' =>
            if Ascii.eqb c' nbsp_trail then "&nbsp;" +:+ serializeText rest'
            else String c (serializeText rest)
        | EmptyString => String c ""
        end
      else String c (serializeText rest)
  end.

(** The number of markup delimiters, [<] and [>], in a string. *)
Fixpoint markup (s : string) : nat :=
  match s with
  | EmptyString => 0
  | String c rest =>
      (if Ascii.eqb c "<" || Ascii.eqb c ">" then 1 else 0) + markup rest
  end.

(** No markup character is left unescaped: the string holds no [<] and
    no [>], and every [&] starts one of the character references
    [&amp;], [&lt;], [&gt;], [&nbsp;]. *)
Fixpoint wellEscaped (s : string) : bool :=
  match s with
  | EmptyString => true
  | String c rest =>
      if Ascii.eqb c "<" || Ascii.eqb c ">" then false
      else if Ascii.eqb c "&" then
        (String.prefix "amp;" rest || String.prefix "lt;" rest
         || String.prefix "gt;" rest || String.prefix "nbsp;" rest)
        && wellEscaped rest
      else wellEscaped rest
  end.

(** The bytes that follow a lead byte in its sequence, and the UTF-16
    code units the sequence stands for: one unit for a sequence of up to
    three bytes, two units (a surrogate pair) for one of four bytes. *)
Definition sequenceOf (lead : ascii) : nat * nat :=
  let n := nat_of_ascii lead in
  if (n <? 192)%nat then (0, 1)
  else if (n <? 224)%nat then (1, 1)
  else if (n <? 240)%nat then (2, 1)
  else (3, 2).

Definition byteAt (i : nat) (s : string) : N :=
  match String.get i s with
  | Some c => N_of_ascii c
  | None => 0%N
  end.

(** The first half of the surrogate pair of a four-byte sequence, as the
    three bytes of a lone surrogate. *)
Definition highSurrogate (lead : ascii) (rest : string) : string :=
  let cp := ((N_of_ascii lead mod 8) * 262144 + (byteAt 0 rest mod 64) * 4096
             + (byteAt 1 rest mod 64) * 64 + byteAt 2 rest mod 64)%N in
  let hi := (55296 + (cp - 65536) / 1024)%N in
  String (ascii_of_N 237)
    (String (ascii_of_N (128 + (hi / 64) mod 64))
       (String (ascii_of_N (128 + hi mod 64)) "")).

(** The first [n] UTF-16 code units of [s]; [pending] bytes of the
    current sequence are still to copy.  A surrogate pair cut in the
    middle leaves its first half. *)
Fixpoint takeUnits (n pending : nat) (s : string) : string :=
  match s with
  | EmptyString => ""
  | String c rest =>
      match pending with
      | S p => String c (takeUnits n p rest)
      | O =>
          let (more, units) := sequenceOf c in
          if (units <=? n)%nat then String c (takeUnits (n - units) more rest)
          else if (n =? 0)%nat then ""
          else highSurrogate c rest
      end
  end.

(** [s.substring(0, n)] *)
Definition substring0 (n : nat) (s : string) : string := takeUnits n 0 s.

Fixpoint countUnits (pending : nat) (s : string) : nat :=
  match s with
  | EmptyString => 0
  | String c rest =>
      match pending with
      | S p => countUnits p rest
      | O => let (more, units) := sequenceOf c in units + countUnits more rest
      end
  end.

(** [s.length], in UTF-16 code units. *)
Definition unitLength (s : string) : nat := countUnits 0 s.

(** [s] without its first [n] characters. *)
Fixpoint dropStr (n : nat) (s : string) : string :=
  match n, s with
  | O, _ => s
  | S n', String _ rest => dropStr n' rest
  | S _, EmptyString => ""
  end.

(** Reading the four character references back; [fuel] bounds the
    length of [s]. *)
Fixpoint unescapeText (fuel : nat) (s : string) : string :=
  match fuel with
  | O => s
  | S fuel' =>
      match s with
      | EmptyString => ""
      | String c rest =>
          if Ascii.eqb c "&" then
            if String.prefix "amp;" rest then
              String "&" (unescapeText fuel' (dropStr 4 rest))
            else if String.prefix "lt;" rest then
              String "<" (unescapeText fuel' (dropStr 3 rest))
            else if String.prefix "gt;" rest then
              String ">" (unescapeText fuel' (dropStr 3 rest))
            else if String.prefix "nbsp;" rest then
              String nbsp_lead (String nbsp_trail (unescapeText fuel' (dropStr 5 rest)))
            else String c (unescapeText fuel' rest)
          else String c (unescapeText fuel' rest)
      end
  end.

End Html.
Export Html.

(** ** The dashboard script *)

Module Dashboard.

Definition API_BASE : string := "".

Definition COLORS_primary : string := "#6366f1".
Definition COLORS_success : string := "#10b981".
Definition COLORS_warning : string := "#f59e0b".
Definition COLORS_danger : string := "#ef4444".
Definition COLORS_info : string := "#3b82f6".
Definition COLORS_purple : string := "#8b5cf6".
Definition COLORS_pink : string := "#ec4899".
Definition COLORS_teal : string := "#14b8a6".

Definition CATEGORY_COLORS : list (string * string) :=
  [("Benefits", COLORS_primary);
   ("PTO", COLORS_success);
   ("Payroll", COLORS_warning);
   ("Policy", COLORS_info);
   ("Onboarding", COLORS_purple);
   ("Offboarding", COLORS_pink);
   ("Complaint", COLORS_danger);
   ("General", COLORS_teal);
   ("Unclassified", "#64748b")].

Definition STATUS_COLORS : list (string * string) :=
  [("pending", COLORS_warning);
   ("classified", COLORS_info);
   ("resolved", COLORS_success)].

Fixpoint assoc {A} (k : string) (l : list (string * A)) : option A :=
  match l with
  | [] => None
  | (k', v) :: rest => if String.eqb k k' then Some v else assoc k rest
  end.

(** A ticket as the REST interface delivers it.  [id], [status] and
    [created_at] are strings; the submitted texts and the classification
    members may be absent, and the script guards against that. *)
Record Ticket : Type := MkTicket {
  id : string;
  employee_name : Nullable string;
  employee_email : Nullable string;
  subject : Nullable string;
  description : Nullable string;
  status : string;
  ai_category : Nullable string;
  ai_confidence : Nullable float;
  ai_response : Nullable string;
  created_at : string
}.

(** The analytics snapshot; each member may be absent. *)
Record Analytics : Type := MkAnalytics {
  total_tickets : Nullable Z;
  status_counts : Nullable (list (string * Z));
  category_counts : Nullable (list (string * Z))
}.

(** What the host provides and the script does not define: date parsing
    ([None] for an invalid date) and formatting in the user's locale, the
    engine's [Array.prototype.sort], [Math.round], and the conversion of
    a number to its text. *)
Record Host : Type := MkHost {
  Date_getTime : string -> option Z;
  toLocaleString : string -> string;
  toLocaleDateString : string -> string;
  Array_sort : (Ticket -> Ticket -> option Z) -> list Ticket -> list Ticket;
  Math_round : float -> float;
  Number_toString : float -> string
}.

(** A chart instance: its type and the three members the script
    rewrites.  The fixed styling options of the constructor call are left
    out. *)
Record Chart : Type := MkChart {
  chart_type : string;
  chart_labels : list string;
  chart_data : list Z;
  chart_backgroundColor : list string
}.

(** The part of the page the script writes, and its two module-level
    chart variables. *)
Record Page : Type := MkPage {
  totalTickets_textContent : Text;
  pendingTickets_textContent : Text;
  classifiedTickets_textContent : Text;
  resolvedTickets_textContent : Text;
  categoryChart : option Chart;
  statusChart : option Chart;
  ticketsTableBody_innerHTML : string;
  ticketDetails_innerHTML : string;
  ticketModal_display : string
}.

(** The answers of the back end, typed by end point, the user's answer
    to [confirm], and which of the two requests of a refresh is rejected
    first when both are. *)
Record Environment : Type := MkEnvironment {
  tickets_api : FetchOutcome (Nullable (list Ticket));
  analytics_api : FetchOutcome Analytics;
  ticket_api : string -> FetchOutcome Ticket;
  resolve_api : string -> FetchOutcome Ticket;
  confirm_answer : bool;
  analytics_rejects_first : bool
}.

Definition M : Type -> Type := Eff Page Environment.

Definition with_stats (total pending classified resolved : Text) (p : Page) : Page :=
  MkPage total pending classified resolved (categoryChart p) (statusChart p)
    (ticketsTableBody_innerHTML p) (ticketDetails_innerHTML p) (ticketModal_display p).

Definition with_categoryChart (c : Chart) (p : Page) : Page :=
  MkPage (totalTickets_textContent p) (pendingTickets_textContent p)
    (classifiedTickets_textContent p) (resolvedTickets_textContent p)
    (Some c) (statusChart p)
    (ticketsTableBody_innerHTML p) (ticketDetails_innerHTML p) (ticketModal_display p).

Definition with_statusChart (c : Chart) (p : Page) : Page :=
  MkPage (totalTickets_textContent p) (pendingTickets_textContent p)
    (classifiedTickets_textContent p) (resolvedTickets_textContent p)
    (categoryChart p) (Some c)
    (ticketsTableBody_innerHTML p) (ticketDetails_innerHTML p) (ticketModal_display p).

Definition with_ticketsTableBody_innerHTML (s : string) (p : Page) : Page :=
  MkPage (totalTickets_textContent p) (pendingTickets_textContent p)
    (classifiedTickets_textContent p) (resolvedTickets_textContent p)
    (categoryChart p) (statusChart p)
    s (ticketDetails_innerHTML p) (ticketModal_display p).

Definition with_ticketDetails_innerHTML (s : string) (p : Page) : Page :=
  MkPage (totalTickets_textContent p) (pendingTickets_textContent p)
    (classifiedTickets_textContent p) (resolvedTickets_textContent p)
    (categoryChart p) (statusChart p)
    (ticketsTableBody_innerHTML p) s (ticketModal_display p).

Definition with_ticketModal_display (s : string) (p : Page) : Page :=
  MkPage (totalTickets_textContent p) (pendingTickets_textContent p)
    (classifiedTickets_textContent p) (resolvedTickets_textContent p)
    (categoryChart p) (statusChart p)
    (ticketsTableBody_innerHTML p) (ticketDetails_innerHTML p) s.

(** *** Pure helpers *)

(** Escape HTML to prevent XSS. *)
Definition escapeHtml (text : Nullable string) : string :=
  if negb (truthyStr text) then ""
  else match text with
       | Val s => serializeText s
       | Undefined | Null => ""
       end.

(** The string of a value interpolated into a template literal. *)
Definition toStr (v : Nullable string) : string :=
  match v with
  | Val s => s
  | Null => "null"
  | Undefined => "undefined"
  end.

(** The number of a value used in arithmetic; the script reads it only
    under a truthiness guard. *)
Definition numOf (v : Nullable float) : float :=
  match v with
  | Val f => f
  | Null => 0%float
  | Undefined => PrimFloat.nan
  end.

(** [ticket.subject || ticket.description?.substring(0, 30) + '...'] *)
Definition subjectOrExcerpt (ticket : Ticket) : Nullable string :=
  if truthyStr (subject ticket) then subject ticket
  else Val (match description ticket with
            | Val d => substring0 30 d
            | Undefined | Null => "undefined"
            end +:+ "...").

(** The first letter in upper case, for ASCII letters. *)
Definition capitalize (s : string) : string :=
  match s with
  | EmptyString => ""
  | String c rest =>
      let n := nat_of_ascii c in
      String (if (97 <=? n)%nat && (n <=? 122)%nat then ascii_of_nat (n - 32) else c) rest
  end.

(** [analytics.x || 0] and [analytics.status_counts?.k || 0] *)
Definition orZero (v : Nullable Z) : Z :=
  match v with
  | Val n => n
  | Undefined | Null => 0
  end.

Definition countOrZero (counts : Nullable (list (string * Z))) (k : string) : Z :=
  match counts with
  | Val l => match assoc k l with Some n => n | None => 0 end
  | Undefined | Null => 0
  end.

(** [counts || {}] *)
Definition orEmpty (counts : Nullable (list (string * Z))) : list (string * Z) :=
  match counts with
  | Val l => l
  | Undefined | Null => []
  end.

Definition numText (n : Z) : Text := TValue (JNum (inject_Z n)).

Section WithHost.
Variable h : Host.

(** Format date string. *)
Definition formatDate (dateStr : string) (full : bool) : string :=
  if full then toLocaleString h dateStr else toLocaleDateString h dateStr.

(** The comparator of the table: by [created_at], newest first; [None]
    stands for [NaN]. *)
Definition byCreatedDesc (a b : Ticket) : option Z :=
  match Date_getTime h (created_at b), Date_getTime h (created_at a) with
  | Some tb, Some ta => Some (tb - ta)%Z
  | _, _ => None
  end.

(** Render confidence indicator. *)
Definition renderConfidence (confidence : float) : string :=
  let percent := Math_round h (PrimFloat.mul confidence 100) in
  nl +:+
  "        <div class=" +:+ dq +:+ "confidence" +:+ dq +:+ ">" +:+ nl +:+
  "            <div class=" +:+ dq +:+ "confidence-bar" +:+ dq +:+ ">" +:+ nl +:+
  "                <div class=" +:+ dq +:+ "confidence-fill" +:+ dq +:+ " style=" +:+ dq +:+ "width: " +:+ Number_toString h percent +:+ "%" +:+ dq +:+ "></div>" +:+ nl +:+
  "            </div>" +:+ nl +:+
  "            <span class=" +:+ dq +:+ "confidence-text" +:+ dq +:+ ">" +:+ Number_toString h percent +:+ "%</span>" +:+ nl +:+
  "        </div>" +:+ nl +:+
  "    ".

(** One row of the tickets table. *)
Definition ticketRow (ticket : Ticket) : string :=
  nl +:+
  "        <tr onclick=" +:+ dq +:+ "showTicketDetail('" +:+ id ticket +:+ "')" +:+ dq +:+ ">" +:+ nl +:+
  "            <td><code>" +:+ substring0 8 (id ticket) +:+ "...</code></td>" +:+ nl +:+
  "            <td>" +:+ escapeHtml (employee_name ticket) +:+ "</td>" +:+ nl +:+
  "            <td>" +:+ escapeHtml (subjectOrExcerpt ticket) +:+ "</td>" +:+ nl +:+
  "            <td>" +:+ (if truthyStr (ai_category ticket) then
   "<span class=" +:+ dq +:+ "category-badge" +:+ dq +:+ ">" +:+ toStr (ai_category ticket) +:+ "</span>"
 else "-") +:+ "</td>" +:+ nl +:+
  "            <td>" +:+ (if truthyNum (ai_confidence ticket) then renderConfidence (numOf (ai_confidence ticket)) else "-") +:+ "</td>" +:+ nl +:+
  "            <td><span class=" +:+ dq +:+ "badge badge-" +:+ status ticket +:+ dq +:+ ">" +:+ status ticket +:+ "</span></td>" +:+ nl +:+
  "            <td>" +:+ formatDate (created_at ticket) false +:+ "</td>" +:+ nl +:+
  "        </tr>" +:+ nl +:+
  "    ".

Definition emptyTable : string :=
  nl +:+
  "            <tr>" +:+ nl +:+
  "                <td colspan=" +:+ dq +:+ "7" +:+ dq +:+ " class=" +:+ dq +:+ "empty-state" +:+ dq +:+ ">" +:+ nl +:+
  "                    No tickets yet. <a href=" +:+ dq +:+ "/" +:+ dq +:+ ">Submit your first ticket</a>" +:+ nl +:+
  "                </td>" +:+ nl +:+
  "            </tr>" +:+ nl +:+
  "        ".

(** [rows.join('')] *)
Definition join (rows : list string) : string :=
  fold_right String.append "" rows.

(** The markup of the ticket detail modal. *)
Definition ticketDetail (ticket : Ticket) : string :=
  nl +:+
  "            <div class=" +:+ dq +:+ "ticket-detail" +:+ dq +:+ ">" +:+ nl +:+
  "                <div class=" +:+ dq +:+ "label" +:+ dq +:+ ">Ticket ID</div>" +:+ nl +:+
  "                <div class=" +:+ dq +:+ "value" +:+ dq +:+ "><code>" +:+ id ticket +:+ "</code></div>" +:+ nl +:+
  "            </div>" +:+ nl +:+
  "            <div class=" +:+ dq +:+ "ticket-detail" +:+ dq +:+ ">" +:+ nl +:+
  "                <div class=" +:+ dq +:+ "label" +:+ dq +:+ ">Employee</div>" +:+ nl +:+
  "                <div class=" +:+ dq +:+ "value" +:+ dq +:+ ">" +:+ escapeHtml (employee_name ticket) +:+ " (" +:+ escapeHtml (employee_email ticket) +:+ ")</div>" +:+ nl +:+
  "            </div>" +:+ nl +:+
  "            <div class=" +:+ dq +:+ "ticket-detail" +:+ dq +:+ ">" +:+ nl +:+
  "                <div class=" +:+ dq +:+ "label" +:+ dq +:+ ">Subject</div>" +:+ nl +:+
  "                <div class=" +:+ dq +:+ "value" +:+ dq +:+ ">" +:+ escapeHtml (subject ticket) +:+ "</div>" +:+ nl +:+
  "            </div>" +:+ nl +:+
  "            <div class=" +:+ dq +:+ "ticket-detail" +:+ dq +:+ ">" +:+ nl +:+
  "                <div class=" +:+ dq +:+ "label" +:+ dq +:+ ">Description</div>" +:+ nl +:+
  "                <div class=" +:+ dq +:+ "value" +:+ dq +:+ ">" +:+ escapeHtml (description ticket) +:+ "</div>" +:+ nl +:+
  "            </div>" +:+ nl +:+
  "            <div class=" +:+ dq +:+ "ticket-detail" +:+ dq +:+ ">" +:+ nl +:+
  "                <div class=" +:+ dq +:+ "label" +:+ dq +:+ ">Status</div>" +:+ nl +:+
  "                <div class=" +:+ dq +:+ "value" +:+ dq +:+ "><span class=" +:+ dq +:+ "badge badge-" +:+ status ticket +:+ dq +:+ ">" +:+ status ticket +:+ "</span></div>" +:+ nl +:+
  "            </div>" +:+ nl +:+
  "            " +:+ (if truthyStr (ai_category ticket) then
   nl +:+
   "                <div class=" +:+ dq +:+ "ticket-detail" +:+ dq +:+ ">" +:+ nl +:+
   "                    <div class=" +:+ dq +:+ "label" +:+ dq +:+ ">AI Classification</div>" +:+ nl +:+
   "                    <div class=" +:+ dq +:+ "value" +:+ dq +:+ ">" +:+ nl +:+
   "                        <span class=" +:+ dq +:+ "category-badge" +:+ dq +:+ ">" +:+ toStr (ai_category ticket) +:+ "</span>" +:+ nl +:+
   "                        " +:+ (if truthyNum (ai_confidence ticket) then
     "(" +:+ Number_toString h (Math_round h (PrimFloat.mul (numOf (ai_confidence ticket)) 100)) +:+ "% confidence)"
   else "") +:+ nl +:+
   "                    </div>" +:+ nl +:+
   "                </div>" +:+ nl +:+
   "            "
 else "") +:+ nl +:+
  "            " +:+ (if truthyStr (ai_response ticket) then
   nl +:+
   "                <div class=" +:+ dq +:+ "ai-response" +:+ dq +:+ ">" +:+ nl +:+
   "                    <h4>ü§ñ AI Suggested Response</h4>" +:+ nl +:+
   "                    <p>" +:+ escapeHtml (ai_response ticket) +:+ "</p>" +:+ nl +:+
   "                </div>" +:+ nl +:+
   "            "
 else "") +:+ nl +:+
  "            <div class=" +:+ dq +:+ "ticket-detail" +:+ dq +:+ ">" +:+ nl +:+
  "                <div class=" +:+ dq +:+ "label" +:+ dq +:+ ">Created</div>" +:+ nl +:+
  "                <div class=" +:+ dq +:+ "value" +:+ dq +:+ ">" +:+ formatDate (created_at ticket) true +:+ "</div>" +:+ nl +:+
  "            </div>" +:+ nl +:+
  "            " +:+ (if negb (String.eqb (status ticket) "resolved") then
   nl +:+
   "                <div class=" +:+ dq +:+ "modal-actions" +:+ dq +:+ " style=" +:+ dq +:+ "margin-top: 24px; text-align: right;" +:+ dq +:+ ">" +:+ nl +:+
   "                    <button class=" +:+ dq +:+ "btn btn-primary" +:+ dq +:+ " onclick=" +:+ dq +:+ "resolveTicket('" +:+ id ticket +:+ "')" +:+ dq +:+ ">" +:+ nl +:+
   "                        ‚úÖ Resolve Ticket" +:+ nl +:+
   "                    </button>" +:+ nl +:+
   "                </div>" +:+ nl +:+
   "            "
 else "") +:+ nl +:+
  "        ".

Local Open Scope eff_scope.

(** Update stats cards. *)
Definition updateStats (analytics : Analytics) : M unit :=
  modifyDom (with_stats
    (numText (orZero (total_tickets analytics)))
    (numText (countOrZero (status_counts analytics) "pending"))
    (numText (countOrZero (status_counts analytics) "classified"))
    (numText (countOrZero (status_counts analytics) "resolved"))).

Definition colorOf (table : list (string * string)) (fallback key : string) : string :=
  match assoc key table with
  | Some c => c
  | None => fallback
  end.

(** Update category distribution chart. *)
Definition updateCategoryChart (categoryData : list (string * Z)) : M unit :=
  let labels := map fst categoryData in
  let data := map snd categoryData in
  let colors := map (colorOf CATEGORY_COLORS "#64748b") labels in
  p <- getDom ;;
  match categoryChart p with
  | Some c => modifyDom (with_categoryChart (MkChart (chart_type c) labels data colors))
  | None => modifyDom (with_categoryChart (MkChart "doughnut" labels data colors))
  end.

(** Update status distribution chart. *)
Definition updateStatusChart (statusData : list (string * Z)) : M unit :=
  let labels := map (fun kv => capitalize (fst kv)) statusData in
  let data := map snd statusData in
  let colors := map (fun kv => colorOf STATUS_COLORS "#64748b" (fst kv)) statusData in
  p <- getDom ;;
  match statusChart p with
  | Some c => modifyDom (with_statusChart (MkChart (chart_type c) labels data colors))
  | None => modifyDom (with_statusChart (MkChart "bar" labels data colors))
  end.

(** Update charts. *)
Definition updateCharts (analytics : Analytics) : M unit :=
  updateCategoryChart (orEmpty (category_counts analytics)) ;;;
  updateStatusChart (orEmpty (status_counts analytics)).

(** The markup [updateTable] writes into the table body. *)
Definition tableHtml (tickets : Nullable (list Ticket)) : string :=
  match tickets with
  | Val (t :: ts) => join (map ticketRow (Array_sort h byCreatedDesc (t :: ts)))
  | Val [] | Undefined | Null => emptyTable
  end.

(** Update tickets table. *)
Definition updateTable (tickets : Nullable (list Ticket)) : M unit :=
  modifyDom (with_ticketsTableBody_innerHTML (tableHtml tickets)).

(** What an [async] fetch helper settles to: the parsed body of an [ok]
    response, the error [failure] for another response, the rejection of
    the request, or nothing. *)
Definition settle {P} (failure : string) (o : FetchOutcome P) : Completion P :=
  match o with
  | Fulfilled r =>
      if negb (ok r) then Throw (Error failure)
      else match json r with
           | Some v => Normal v
           | None => Throw (SyntaxError "Unexpected token in JSON")
           end
  | Rejected e => Throw e
  | Pending => Hang
  end.

(** [await Promise.all([a, b])]: both values when both are fulfilled, a
    rejection as soon as one rejects, with the error of the one that
    rejects first ([secondFirst] says that it is [b]'s when both do),
    suspended otherwise. *)
Definition promiseAll2 {A B} (secondFirst : bool)
    (a : Completion A) (b : Completion B) : Completion (A * B) :=
  match a, b with
  | Normal x, Normal y => Normal (x, y)
  | Throw e1, Throw e2 => Throw (if secondFirst then e2 else e1)
  | Throw e, _ => Throw e
  | _, Throw e => Throw e
  | _, _ => Hang
  end.

Definition complete {A} (c : Completion A) : M A := fun w => (c, w).

Definition ticketsRequest : Request :=
  MkRequest (API_BASE +:+ "/api/tickets") "GET" [] None.

Definition analyticsRequest : Request :=
  MkRequest (API_BASE +:+ "/api/analytics") "GET" [] None.

Definition ticketRequest (ticketId : string) : Request :=
  MkRequest (API_BASE +:+ "/api/tickets/" +:+ ticketId) "GET" [] None.

Definition resolveRequest (ticketId : string) : Request :=
  MkRequest (API_BASE +:+ "/api/tickets/" +:+ ticketId +:+ "/resolve") "POST"
    [("Content-Type", "application/json")]
    (Some (JObj [("action", JStr "resolved"); ("user", JStr "Dashboard User")])).

(** Refresh all dashboard data.  [fetchTickets] and [fetchAnalytics] both
    send their request before either is awaited. *)
Definition refreshData : M unit :=
  tryCatch
    (emit (EvFetch ticketsRequest) ;;;
     emit (EvFetch analyticsRequest) ;;;
     env <- (fun w => (Normal (net w), w)) ;;
     both <- complete (promiseAll2 (analytics_rejects_first env)
               (settle "Failed to fetch tickets" (tickets_api env))
               (settle "Failed to fetch analytics" (analytics_api env))) ;;
     let tickets := fst both in
     let analytics := snd both in
     updateStats analytics ;;;
     updateCharts analytics ;;;
     updateTable tickets)
    (fun error =>
       console_error [ArgStr "Error fetching dashboard data:"; ArgErr error]).

(** Show ticket detail modal. *)
Definition showTicketDetail (ticketId : string) : M unit :=
  tryCatch
    (response <- awaitFetch (ticketRequest ticketId)
                   (fun env : Environment => ticket_api env ticketId) ;;
     (if negb (ok response) then throw (Error "Failed to fetch ticket") else ret tt) ;;;
     ticket <- awaitJson response ;;
     modifyDom (with_ticketDetails_innerHTML (ticketDetail ticket)) ;;;
     modifyDom (with_ticketModal_display "flex"))
    (fun error =>
       console_error [ArgStr "Error fetching ticket details:"; ArgErr error]).

(** Close ticket modal. *)
Definition closeTicketModal : M unit :=
  modifyDom (with_ticketModal_display "none").

(** [confirm(msg)] *)
Definition confirm (msg : string) : M bool :=
  fun w => (Normal (confirm_answer (net w)),
            MkWorld (dom w) (net w) (EvConfirm msg :: trace w)).

Definition resolvedMessage : string := "‚úÖ Ticket resolved successfully!".
Definition resolveFailedMessage : string := "‚ùå Failed to resolve ticket. Please try again.".

(** Resolve a ticket. *)
Definition resolveTicket (ticketId : string) : M unit :=
  yes <- confirm "Are you sure you want to mark this ticket as resolved?" ;;
  if negb yes then ret tt
  else
    tryCatch
      (response <- awaitFetch (resolveRequest ticketId)
                     (fun env : Environment => resolve_api env ticketId) ;;
       (if negb (ok response) then throw (Error "Failed to resolve ticket") else ret tt) ;;;
       closeTicketModal ;;;
       refreshData ;;;
       alert resolvedMessage)
      (fun error =>
         console_error [ArgStr "Error resolving ticket:"; ArgErr error] ;;;
         alert resolveFailedMessage).

End WithHost.

End Dashboard.

(** ** The ticket lifecycle of the back end *)

(** The Flask back end ([backend/server.py]) is not among the sources.
    Its store, orchestrator, resolve action and aggregator are modelled
    here from the specification. *)

Module Backend.

(** Modelled from the spec: the three ticket states of [server.py]. *)
Inductive Status : Type :=
| pending
| classified
| resolved.

(** Modelled from the spec: the fixed set of category labels. *)
Inductive Category : Type :=
| Benefits
| PTO
| Payroll
| Policy
| Onboarding
| Offboarding
| Complaint
| General.

(** Modelled from the spec: the ticket record of the store. *)
Record Ticket : Type := MkTicket {
  id : string;
  employee_name : string;
  employee_email : string;
  subject : string;
  description : string;
  status : Status;
  ai_category : option Category;
  ai_confidence : option Q;
  ai_response : option string;
  created_at : Z;
  resolved_at : option Z;
  resolved_by : option string
}.

(** Modelled from the spec: the body of [POST /api/tickets]. *)
Record TicketInput : Type := MkTicketInput {
  in_employee_name : string;
  in_employee_email : string;
  in_subject : string;
  in_description : string
}.

(** Modelled from the spec: the errors a caller of the store sees. *)
Inductive StoreError : Type :=
| ValidationError
| NotFound
| InvalidTransition.

(** Modelled from the spec: the fields [update] may write, those of the
    classification and of the resolution. *)
Record PartialFields : Type := MkPartialFields {
  set_status : option Status;
  set_ai_category : option Category;
  set_ai_confidence : option Q;
  set_ai_response : option string;
  set_resolved_at : option Z;
  set_resolved_by : option string
}.

(** The store: ticket id to ticket record. *)
Abbreviation Store := (gmap string Ticket).

Definition statusName (s : Status) : string :=
  match s with
  | pending => "pending"
  | classified => "classified"
  | resolved => "resolved"
  end.

Definition categoryName (c : Category) : string :=
  match c with
  | Benefits => "Benefits"
  | PTO => "PTO"
  | Payroll => "Payroll"
  | Policy => "Policy"
  | Onboarding => "Onboarding"
  | Offboarding => "Offboarding"
  | Complaint => "Complaint"
  | General => "General"
  end.

(** The position of a state on the path pending, classified, resolved. *)
Definition rank (s : Status) : nat :=
  match s with
  | pending => 0
  | classified => 1
  | resolved => 2
  end.

Definition isSpace (c : ascii) : bool :=
  let n := nat_of_ascii c in
  (n =? 32)%nat || ((9 <=? n)%nat && (n <=? 13)%nat).

(** Empty, or white space only. *)
Fixpoint isBlank (s : string) : bool :=
  match s with
  | EmptyString => true
  | String c rest => isSpace c && isBlank rest
  end.

Definition validInput (input : TicketInput) : bool :=
  negb (isBlank (in_employee_name input)) && negb (isBlank (in_employee_email input))
  && negb (isBlank (in_subject input)) && negb (isBlank (in_description input)).

(** Modelled from the spec: [create(ticketInput)] of the Ticket Store.
    A blank required field is a validation error; otherwise the store
    generates an id that no ticket has, stamps [created_at] and persists
    a pending ticket without classification. *)
Definition create (store : Store) (input : TicketInput) (now : Z)
  : StoreError + Store * Ticket :=
  if negb (validInput input) then inl ValidationError
  else
    let t := MkTicket (fresh (base.dom store))
               (in_employee_name input) (in_employee_email input)
               (in_subject input) (in_description input)
               pending None None None now None None in
    inr (<[id t := t]> store, t).

(** Modelled from the spec: [get(id)]. *)
Definition get (store : Store) (i : string) : StoreError + Ticket :=
  match store !! i with
  | Some t => inr t
  | None => inl NotFound
  end.

(** Modelled from the spec: [list()], in the order of the store. *)
Definition list_tickets (store : Store) : list Ticket :=
  (map_to_list store).*2.

Definition orKeep {A} (new : option A) (old : option A) : option A :=
  match new with
  | Some a => Some a
  | None => old
  end.

Definition applyFields (p : PartialFields) (t : Ticket) : Ticket :=
  MkTicket (id t) (employee_name t) (employee_email t) (subject t) (description t)
    (match set_status p with Some s => s | None => status t end)
    (orKeep (set_ai_category p) (ai_category t))
    (orKeep (set_ai_confidence p) (ai_confidence t))
    (orKeep (set_ai_response p) (ai_response t))
    (created_at t)
    (orKeep (set_resolved_at p) (resolved_at t))
    (orKeep (set_resolved_by p) (resolved_by t)).

(** Modelled from the spec: [update(id, partialFields)]. *)
Definition update (store : Store) (i : string) (p : PartialFields)
  : StoreError + Store * Ticket :=
  match store !! i with
  | Some t => let t' := applyFields p t in inr (<[i := t']> store, t')
  | None => inl NotFound
  end.

(** Modelled from the spec: the error taxonomy.  A request handler
    raises a store error, or one of the failures of a classification
    attempt: the service does not answer in time, it answers with an
    error, its response cannot be read, or the confidence it reports is
    outside [0,1]. *)
Inductive Exn : Type :=
| StoreFailed (e : StoreError)
| ServiceTimeout
| ServiceDown
| ResponseMalformed
| ConfidenceOutOfRange.

(** Modelled from the spec: the failures that belong to the
    classification service, those that degrade gracefully. *)
Definition classifierFailure (e : Exn) : bool :=
  match e with
  | StoreFailed _ => false
  | ServiceTimeout | ServiceDown | ResponseMalformed | ConfidenceOutOfRange => true
  end.

(** Modelled from the spec: a handler returns, or raises (fails its
    request). *)
Definition Result (A : Type) : Type := Exn + A.

Definition ret {A : Type} (a : A) : Result A := inr a.

Definition raise {A : Type} (e : Exn) : Result A := inl e.

Definition bind {A B : Type} (m : Result A) (k : A -> Result B) : Result B :=
  match m with
  | inl e => inl e
  | inr a => k a
  end.

(** [try: m except e: handler e] *)
Definition catch {A : Type} (m : Result A) (handler : Exn -> Result A) : Result A :=
  match m with
  | inl e => handler e
  | inr a => inr a
  end.

(** Modelled from the spec: a store operation inside a handler; its
    error is raised. *)
Definition ofStore {A : Type} (r : StoreError + A) : Result A :=
  match r with
  | inl e => raise (StoreFailed e)
  | inr a => ret a
  end.

(** Modelled from the spec: what the classification service answers. *)
Inductive ServiceAnswer : Type :=
| Timeout
| ServiceError
| Malformed
| Scores (scores : list (Category * Q)).

(** The highest-scoring label, the first one among equals. *)
Fixpoint topLabel (scores : list (Category * Q)) : option (Category * Q) :=
  match scores with
  | [] => None
  | (c, q) :: rest =>
      match topLabel rest with
      | Some (c', q') => if Qle_bool q' q then Some (c, q) else Some (c', q')
      | None => Some (c, q)
      end
  end.

Definition inUnitInterval (q : Q) : bool := Qle_bool 0 q && Qle_bool q 1.

(** Modelled from the spec: the call to the classification end point.
    It raises on a time-out and on a service error, and on a response
    that does not carry scores. *)
Definition callService (answer : ServiceAnswer) : Result (list (Category * Q)) :=
  match answer with
  | Timeout => raise ServiceTimeout
  | ServiceError => raise ServiceDown
  | Malformed => raise ResponseMalformed
  | Scores scores => ret scores
  end.

(** Modelled from the spec: the highest-scoring label and its score as
    the confidence.  A response without labels is malformed, a
    confidence outside [0,1] is an error on the response. *)
Definition selectTop (scores : list (Category * Q)) : Result (Category * Q) :=
  match topLabel scores with
  | None => raise ResponseMalformed
  | Some (c, q) => if inUnitInterval q then ret (c, q) else raise ConfidenceOutOfRange
  end.

(** Modelled from the spec: the result of [classify]. *)
Inductive ClassifyResult : Type :=
| ClassificationResult (category : Category) (confidence : Q)
| ClassificationUnavailable.

(** Modelled from the spec: the fields a classification writes, the
    category, the confidence and the reply, and the state classified
    for a pending ticket. *)
Definition classificationFields (reply : Category -> string) (t : Ticket)
    (c : Category) (q : Q) : PartialFields :=
  MkPartialFields
    (match status t with pending => Some classified | _ => None end)
    (Some c) (Some q) (Some (reply c)) None None.

(** Modelled from the spec: one classification attempt, inside the
    orchestrator.  It reads the ticket, calls the service, selects the
    label and writes the classification through [update]; each of the
    four steps may raise. *)
Definition attempt (reply : Category -> string) (store : Store) (i : string)
    (answer : ServiceAnswer) : Result (Store * ClassifyResult) :=
  bind (ofStore (get store i)) (fun t =>
  bind (callService answer) (fun scores =>
  bind (selectTop scores) (fun '(c, q) =>
  bind (ofStore (update store i (classificationFields reply t c q))) (fun '(store', _) =>
  ret (store', ClassificationResult c q))))).

(** Modelled from the spec: [classify] of the Classification
    Orchestrator, the attempt and the boundary around it.  A failure of
    the classification service is caught: nothing is written and the
    classification is reported as unavailable.  A store error is not
    caught, it goes to the caller. *)
Definition classify (reply : Category -> string) (store : Store) (i : string)
    (answer : ServiceAnswer) : Result (Store * ClassifyResult) :=
  catch (attempt reply store i answer)
    (fun e => if classifierFailure e then ret (store, ClassificationUnavailable)
              else raise e).

(** Modelled from the spec: the resolve action; a repeated resolve is
    rejected. *)
Definition resolve (store : Store) (i : string) (actor : string) (now : Z)
  : StoreError + Store * Ticket :=
  match store !! i with
  | None => inl NotFound
  | Some t =>
      match status t with
      | resolved => inl InvalidTransition
      | pending | classified =>
          update store i
            (MkPartialFields (Some resolved) None None None (Some now) (Some actor))
      end
  end.

(** Modelled from the spec: the analytics snapshot. *)
Record AnalyticsSnapshot : Type := MkAnalyticsSnapshot {
  total_tickets : nat;
  status_counts : gmap string nat;
  category_counts : gmap string nat
}.

(** [counts[k] += 1] *)
Definition increment (k : string) (counts : gmap string nat) : gmap string nat :=
  <[k := S (default 0 (counts !! k))]> counts.

(** [sum(counts.values())] *)
Definition sumValues (counts : gmap string nat) : nat :=
  map_fold (fun _ v acc => v + acc) 0 counts.

Definition countCategory (unclassified : bool) (t : Ticket)
    (counts : gmap string nat) : gmap string nat :=
  match ai_category t with
  | Some c => increment (categoryName c) counts
  | None => if unclassified then increment "Unclassified" counts else counts
  end.

(** Modelled from the spec: [summarize(tickets)] of the Analytics
    Aggregator, one pass over the tickets. *)
Definition summarize (unclassified : bool) (tickets : list Ticket) : AnalyticsSnapshot :=
  MkAnalyticsSnapshot
    (length tickets)
    (fold_left (fun counts t => increment (statusName (status t)) counts) tickets ∅)
    (fold_left (fun counts t => countCategory unclassified t counts) tickets ∅).

(** Modelled from the spec: [GET /api/analytics]. *)
Definition analytics (unclassified : bool) (store : Store) : AnalyticsSnapshot :=
  summarize unclassified (list_tickets store).

(** The operations that change the store. *)
Inductive Op : Type :=
| OpCreate (input : TicketInput) (now : Z)
| OpClassify (i : string) (answer : ServiceAnswer)
| OpResolve (i : string) (actor : string) (now : Z).

(** One operation; a rejected operation leaves the store as it is. *)
Definition step (reply : Category -> string) (store : Store) (op : Op) : Store :=
  match op with
  | OpCreate input now =>
      match create store input now with
      | inr (store', _) => store'
      | inl _ => store
      end
  | OpClassify i answer =>
      match classify reply store i answer with
      | inr (store', _) => store'
      | inl _ => store
      end
  | OpResolve i actor now =>
      match resolve store i actor now with
      | inr (store', _) => store'
      | inl _ => store
      end
  end.

Definition run (reply : Category -> string) (store : Store) (ops : list Op) : Store :=
  fold_left (step reply) ops store.



(** The reply template of the samples. *)
Definition sampleReply (c : Category) : string :=
  "Your " +:+ categoryName c +:+ " request has been received.".

Definition janeInput : TicketInput :=
  MkTicketInput "Jane Doe" "jane@co.com" "PTO balance" "How many days do I have left?".

(** The store after Jane's submission. *)
Definition janeStore : Store :=
  step sampleReply ∅ (OpCreate janeInput 1000).

End Backend.

(** ** Health states and failure classes, as the specification names them *)

Module Monitor.

(** The state a probe reports: the three states of the health monitor,
    and the case where the probe itself fails. *)
Inductive HealthState : Type :=
| Connected
| Loading
| Unreachable
| ProbeError.

(** What a settled probe reports: the answer's [status] member decides
    between the three states; a rejected request, a body that does not
    parse, or a [null] body is a probe error.  A probe that never settles
    reports nothing. *)
Definition reported (o : FetchOutcome JsVal) : option HealthState :=
  match o with
  | Pending => None
  | Rejected _ => Some ProbeError
  | Fulfilled r =>
      match json r with
      | None => Some ProbeError
      | Some health =>
          match getProp health "status" with
          | inl _ => Some ProbeError
          | inr st =>
              if strictEqStr st "connected" then Some Connected
              else if strictEqStr st "loading" then Some Loading
              else Some Unreachable
          end
      end
  end.

(** Ticket creation fails: a network error, or a response that is not
    [ok]. *)
Definition createFails (o : FetchOutcome JsVal) : Prop :=
  match o with
  | Rejected _ => True
  | Fulfilled r => ok r = false
  | Pending => False
  end.

(** Ticket creation succeeds with the parsed ticket [t]. *)
Definition createdTicket (o : FetchOutcome JsVal) (t : JsVal) : Prop :=
  exists r, o = Fulfilled r /\ ok r = true /\ json r = Some t.

(** The submission is shown as done: the success modal is up and the
    submit control is released. *)
Definition submissionShown (p : App.Page) : Prop :=
  App.successModal_display p = "flex" /\ App.submitBtn_disabled p = false.

(** The claim that the dispatch is detached, as stated: once the ticket
    is created, the submission is shown as done whatever the call to the
    automation end point does, also when it never completes. *)
Definition dispatch_detached : Prop :=
  forall (w : World App.Page App.Network) (ticket tid : JsVal),
    createdTicket
      (net w (App.createRequest (App.ticketDataOf (App.form_values (dom w))))) ticket ->
    getProp ticket "id" = inr tid ->
    submissionShown (dom (snd (App.onSubmit w))).

(** The claim that the submit control is enabled after the health check
    in every state, as stated. *)
Definition submit_enabled_in_every_state : Prop :=
  forall (w : World App.Page App.Network) (el : App.AiStatusEl) (s : HealthState),
    App.aiStatus (dom w) = Some el ->
    reported (net w App.healthRequest) = Some s ->
    App.submitBtn_disabled (dom (snd (App.checkAIHealth w))) = false.

End Monitor.

(** ** Sample pages and servers *)

Module Samples.

Import App.

Definition janeForm : TicketForm :=
  MkTicketForm (JStr "Jane Doe") (JStr "jane@co.com")
    (JStr "PTO balance") (JStr "How many days do I have left?").

Definition emptyForm : TicketForm :=
  MkTicketForm (JStr "") (JStr "") (JStr "") (JStr "").

Definition statusEl : AiStatusEl := MkAiStatusEl (TLit "") (TLit "Checking AI...") [].

(** The form page as loaded, with the submit control disabled or not. *)
Definition page (disabled : bool) : Page :=
  MkPage (Some statusEl) disabled (TLit "Submit Ticket") "inline" "none" "none"
    (TLit "") false janeForm emptyForm.

Definition janeTicket : JsVal :=
  JObj [("id", JStr "3f2a9c1e-77aa-4c1b-9a51-0d6e5b8c2f10");
        ("employee_name", JStr "Jane Doe");
        ("employee_email", JStr "jane@co.com");
        ("subject", JStr "PTO balance");
        ("description", JStr "How many days do I have left?");
        ("status", JStr "pending")].

Definition healthBody (st : string) : JsVal := JObj [("status", JStr st)].

(** A server that answers the health probe with [health], creates the
    ticket, and whose webhook end point behaves as [hook]. *)
Definition server (health hook : FetchOutcome JsVal) : Network :=
  fun req =>
    if String.eqb (url req) "/api/ai/health" then health
    else if String.eqb (url req) N8N_WEBHOOK_URL then hook
    else Fulfilled (MkResponse 201 (Some janeTicket)).

(** A server whose ticket end point answers with [create]. *)
Definition serverCreate (create : FetchOutcome JsVal) : Network :=
  fun req =>
    if String.eqb (url req) "/api/tickets" then create
    else Fulfilled (MkResponse 200 (Some JNull)).

Definition healthIs (st : string) : FetchOutcome JsVal :=
  Fulfilled (MkResponse 200 (Some (healthBody st))).

Definition hookDown : FetchOutcome JsVal :=
  Rejected (TypeError "Failed to fetch").

Definition hookError : FetchOutcome JsVal :=
  Fulfilled (MkResponse 500 None).

Definition world (disabled : bool) (health hook : FetchOutcome JsVal)
  : World Page Network :=
  MkWorld (page disabled) (server health hook) [].

End Samples.

(** ** Notions used to state the dashboard's properties *)

Module DashNotions.


(** The request of the resolve action for the ticket [ticketId]. *)
Definition resolvePost (ticketId : string) : Request :=
  MkRequest ("/api/tickets/" +:+ ticketId +:+ "/resolve") "POST"
    [("Content-Type", "application/json")]
    (Some (JObj [("action", JStr "resolved"); ("user", JStr "Dashboard User")])).

(** The markup delimiters that the template of a row and the
    machine-written members of the ticket bring into the row. *)
Definition rowMachineMarkup (h : Dashboard.Host) (t : Dashboard.Ticket) : nat :=
  40 + markup (Dashboard.id t) + markup (substring0 8 (Dashboard.id t))
  + 2 * markup (Dashboard.status t)
  + markup (Dashboard.formatDate h (Dashboard.created_at t) false)
  + (if truthyStr (Dashboard.ai_category t)
     then 4 + markup (Dashboard.toStr (Dashboard.ai_category t)) else 0)
  + (if truthyNum (Dashboard.ai_confidence t)
     then 16 + 2 * markup (Dashboard.Number_toString h
                             (Dashboard.Math_round h
                                (PrimFloat.mul (Dashboard.numOf (Dashboard.ai_confidence t))
                                   100)))
     else 0).




End DashNotions.

(** ** Sample tickets and back ends for the dashboard *)

Module DashSamples.

Import Dashboard.

(** A host that prints dates as they are stored, keeps the order of the
    array and shows every percentage as 92. *)
Definition plainHost : Host :=
  MkHost (fun _ => None) (fun s => s) (fun s => s) (fun _ l => l)
    (fun f => f) (fun _ => "92").

(** A host whose sort returns the array in reverse order. *)
Definition reversingHost : Host :=
  MkHost (fun _ => None) (fun s => s) (fun s => s) (fun _ l => rev l)
    (fun f => f) (fun _ => "92").

Definition ticketWith (name subj desc resp : Nullable string) : Ticket :=
  MkTicket "3f2a9c1e-77aa-4c1b-9a51-0d6e5b8c2f10" name (Val "jane@co.com") subj desc
    "classified" (Val "PTO") (Val 0x1.d70a3d70a3d71p-1%float) resp "2025-01-15T09:30:00".

Definition janeTicket : Ticket :=
  ticketWith (Val "Jane Doe") (Val "PTO balance")
    (Val "How many days do I have left?") (Val "You have 12 days left.").


(** Tickets whose name and suggested reply are absent in different ways. *)
Definition namelessTicket : Ticket :=
  ticketWith Null (Val "PTO balance") (Val "How many days?") Undefined.


Definition emptyPage : Page :=
  MkPage (TLit "0") (TLit "0") (TLit "0") (TLit "0") None None "" "" "flex".

Definition snapshot : Analytics :=
  MkAnalytics (Val 1%Z) (Val [("resolved", 1%Z)]) (Val [("PTO", 1%Z)]).

(** A back end whose resolve end point answers with [status], and a user
    who answers the confirmation with [yes]. *)
Definition backend (status : Z) (yes : bool) : Environment :=
  MkEnvironment
    (Fulfilled (MkResponse 200 (Some (Val [janeTicket]))))
    (Fulfilled (MkResponse 200 (Some snapshot)))
    (fun _ => Fulfilled (MkResponse 200 (Some janeTicket)))
    (fun _ => Fulfilled (MkResponse status (Some janeTicket)))
    yes false.

Definition world (status : Z) (yes : bool) : World Page Environment :=
  MkWorld emptyPage (backend status yes) [].


End DashSamples.

(** ** The fetch helpers of the dashboard *)

Module DashboardHandlers.

Import Dashboard.
Local Open Scope eff_scope.

(** Fetch tickets from API. *)
Definition fetchTickets : M (Nullable (list Ticket)) :=
  response <- awaitFetch ticketsRequest (fun env : Environment => tickets_api env) ;;
  if negb (ok response) then throw (Error "Failed to fetch tickets")
  else awaitJson response.

(** Fetch analytics from API. *)
Definition fetchAnalytics : M Analytics :=
  response <- awaitFetch analyticsRequest (fun env : Environment => analytics_api env) ;;
  if negb (ok response) then throw (Error "Failed to fetch analytics")
  else awaitJson response.

End DashboardHandlers.

(** ** Notions used to state further properties *)

Module Notions.

(** A text without [&], [<], [>] and without U+00A0, the two bytes
    [nbsp_lead], [nbsp_trail]. *)
Fixpoint plainText (s : string) : bool :=
  match s with
  | EmptyString => true
  | String c rest =>
      negb (Ascii.eqb c "&") && negb (Ascii.eqb c "<") && negb (Ascii.eqb c ">")
      && negb (Ascii.eqb c nbsp_lead
               && match rest with
                  | String c' _ => Ascii.eqb c' nbsp_trail
                  | EmptyString => false
                  end)
      && plainText rest
  end.

(** A fetch helper of the dashboard came back with a value. *)
Definition answered {P} (o : FetchOutcome P) : option P :=
  match o with
  | Fulfilled r => if ok r then json r else None
  | Rejected _ | Pending => None
  end.

(** A fetch helper of the dashboard failed: the request was rejected, or
    answered with a response that is not [ok] or does not parse. *)
Definition failedFetch {P} (o : FetchOutcome P) : bool :=
  match o with
  | Fulfilled r => negb (ok r) || match json r with Some _ => false | None => true end
  | Rejected _ => true
  | Pending => false
  end.

Definition sumList (l : list nat) : nat := fold_right Nat.add 0 l.

(** The events of [after] that were not yet in [before]. *)
Definition newEvents {D N} (before after : World D N) : list Event :=
  skipn (length (trace before)) (history after).

End Notions.

(** * Properties *)

(** ** Events and the monad *)

Lemma history_cons {D N} (d : D) (n : N) (e : Event) (t : list Event) :
  history (MkWorld d n (e :: t)) = history (MkWorld d n t) ++ [e].
Proof. reflexivity. Qed.

Lemma fetchesOf_app (a b : list Event) :
  fetchesOf (a ++ b) = fetchesOf a ++ fetchesOf b.
Proof. unfold fetchesOf. apply flat_map_app. Qed.

Lemma timersOf_app (a b : list Event) :
  timersOf (a ++ b) = timersOf a ++ timersOf b.
Proof. unfold timersOf. apply flat_map_app. Qed.

Lemma alertsOf_app (a b : list Event) :
  alertsOf (a ++ b) = alertsOf a ++ alertsOf b.
Proof. unfold alertsOf. apply flat_map_app. Qed.

Ltac unfold_history :=
  unfold history; cbn [trace rev];
  repeat rewrite fetchesOf_app;
  repeat rewrite timersOf_app;
  repeat rewrite alertsOf_app;
  cbn [fetchesOf timersOf alertsOf flat_map app];
  repeat rewrite app_nil_r;
  repeat rewrite <- app_assoc;
  cbn [app].

(** ** The form script *)

Section AppFacts.
Import App Monitor.

Lemma webhook_is_not_ticket_api (data : JsVal) (o : FetchOutcome JsVal) (n : Network) :
  withWebhook o n (createRequest data) = n (createRequest data).
Proof. reflexivity. Qed.

Lemma webhook_answer (ticket : JsVal) (o : FetchOutcome JsVal) (n : Network) :
  withWebhook o n (webhookRequest ticket) = o.
Proof. reflexivity. Qed.

(** The dispatch function, outcome by outcome. *)
Lemma triggerN8nWorkflow_cases (ticket : JsVal) (d : Page) (n : Network) (t : list Event) :
  App.triggerN8nWorkflow ticket (MkWorld d n t) =
  match n (webhookRequest ticket) with
  | Fulfilled r =>
      (Normal (Some r),
       MkWorld d n (EvConsoleLog [ArgStr "n8n workflow triggered successfully"]
                    :: EvFetch (webhookRequest ticket) :: t))
  | Rejected e =>
      (Normal None,
       MkWorld d n (EvConsoleLog [ArgStr "Ticket created locally. n8n classification pending."]
                    :: EvConsoleWarn [ArgStr "Could not reach n8n webhook:"; ArgStr (err_message e)]
                    :: EvFetch (webhookRequest ticket) :: t))
  | Pending => (Hang, MkWorld d n (EvFetch (webhookRequest ticket) :: t))
  end.
Proof.
  unfold triggerN8nWorkflow, tryCatch, bind, awaitFetch. cbn.
  destruct (n (webhookRequest ticket)); reflexivity.
Qed.

Ltac run_eff :=
  cbv beta iota zeta delta
    [onSubmit checkAIHealth createTicket showSuccess form_reset setLoading
     setStatusIcon setStatusText classList_add
     tryFinally tryCatch bind ret throw liftE emit getDom modifyDom
     awaitFetch awaitJson console_log console_warn console_error alert setTimeout
     dom net trace fst snd].

(** C1, [triggerN8nWorkflow] and the submit handler: a failed dispatch is
    swallowed.  Whatever the webhook end point does, the dispatch function
    throws nothing; once the call has settled (fulfilled with any status,
    or rejected) it returns normally; it leaves the page as it was and
    sends one request, to the webhook and to nothing else, so no ticket
    is touched; and the outcome of the submission (completion, page,
    alerts) is the same for any two settled webhook outcomes. *)
Theorem C1_dispatch_failure_is_swallowed :
  forall (ticket : JsVal) (w : World Page Network),
    let after := App.triggerN8nWorkflow ticket w in
    (forall e, fst after <> Throw e) /\
    (settled (net w (webhookRequest ticket)) = true ->
       exists r, fst after = Normal r) /\
    dom (snd after) = dom w /\
    fetchesOf (history (snd after)) = fetchesOf (history w) ++ [webhookRequest ticket] /\
    (forall (o1 o2 : FetchOutcome JsVal) (d : Page) (n : Network) (t : list Event),
       settled o1 = true -> settled o2 = true ->
       let r1 := App.onSubmit (MkWorld d (withWebhook o1 n) t) in
       let r2 := App.onSubmit (MkWorld d (withWebhook o2 n) t) in
       fst r1 = fst r2 /\ dom (snd r1) = dom (snd r2) /\
       alertsOf (history (snd r1)) = alertsOf (history (snd r2))).
Proof.
  intros ticket [d n t]. cbn zeta. rewrite triggerN8nWorkflow_cases. cbn [net dom].
  split; [ | split; [ | split; [ | split]]].
  - intros e. destruct (n (webhookRequest ticket)); discriminate.
  - destruct (n (webhookRequest ticket)); cbn; intros H; try discriminate; eauto.
  - destruct (n (webhookRequest ticket)); reflexivity.
  - destruct (n (webhookRequest ticket)); cbn [snd]; unfold_history; reflexivity.
  - intros o1 o2 d' n' t' H1 H2. run_eff. rewrite !webhook_is_not_ticket_api.
    destruct (n' (createRequest _)) as [r | e | ]; run_eff;
      [ | unfold_history; auto | auto].
    destruct (negb (ok r)); run_eff; [unfold_history; auto | ].
    destruct (json r) as [tk | ]; run_eff; [ | unfold_history; auto].
    rewrite !triggerN8nWorkflow_cases, !webhook_answer.
    destruct o1, o2; try discriminate; run_eff;
      destruct (getProp tk "id"); run_eff; unfold_history; auto.
Qed.

(** Witness of C1: the webhook end point is down, or answers 500. *)
Lemma C1_dispatch_failure_witness :
  (exists r, fst (App.triggerN8nWorkflow Samples.janeTicket
                    (Samples.world false (Samples.healthIs "connected") Samples.hookDown))
             = Normal r) /\
  dom (snd (App.onSubmit (MkWorld (Samples.page false)
         (withWebhook Samples.hookDown
            (Samples.server (Samples.healthIs "connected") Pending)) [])))
  = dom (snd (App.onSubmit (MkWorld (Samples.page false)
         (withWebhook Samples.hookError
            (Samples.server (Samples.healthIs "connected") Pending)) []))).
Proof.
  split.
  - apply (C1_dispatch_failure_is_swallowed Samples.janeTicket
             (Samples.world false (Samples.healthIs "connected") Samples.hookDown)).
    reflexivity.
  - apply (C1_dispatch_failure_is_swallowed Samples.janeTicket
             (Samples.world false (Samples.healthIs "connected") Samples.hookDown)
             ); reflexivity.
Defined.

(** C2, as stated, fails: with the ticket created and a webhook call that
    never completes, the handler stays suspended, the success modal is
    not shown and the submit control stays disabled. *)
Lemma C2_counterexample_pending_webhook : ~ dispatch_detached.
Proof.
  intros H.
  destruct (H (Samples.world false (Samples.healthIs "connected") Pending)
              Samples.janeTicket (JStr "3f2a9c1e-77aa-4c1b-9a51-0d6e5b8c2f10"))
    as [Hshown _].
  - exists (MkResponse 201 (Some Samples.janeTicket)). repeat split.
  - reflexivity.
  - vm_compute in Hshown. discriminate.
Qed.

(** C2, amended: the submit handler awaits the dispatch.  With the
    ticket created, the handler sends the create request and then the
    webhook request; while the webhook call has not settled the handler
    is suspended, the success modal is as it was and the submit control
    is disabled; once the call has settled, in whichever way, the handler
    completes, shows the success modal with the ticket id and releases
    the submit control. *)
Theorem C2_submission_awaits_dispatch :
  forall (w : World Page Network) (ticket tid : JsVal),
    createdTicket (net w (createRequest (ticketDataOf (form_values (dom w))))) ticket ->
    getProp ticket "id" = inr tid ->
    let after := App.onSubmit w in
    fetchesOf (history (snd after)) =
      fetchesOf (history w)
      ++ [createRequest (ticketDataOf (form_values (dom w))); webhookRequest ticket] /\
    (settled (net w (webhookRequest ticket)) = false ->
       fst after = Hang /\
       successModal_display (dom (snd after)) = successModal_display (dom w) /\
       submitBtn_disabled (dom (snd after)) = true) /\
    (settled (net w (webhookRequest ticket)) = true ->
       fst after = Normal tt /\
       successModal_display (dom (snd after)) = "flex" /\
       ticketIdSpan_textContent (dom (snd after)) = TValue tid /\
       submitBtn_disabled (dom (snd after)) = false).
Proof.
  intros [d n t] ticket tid (r & Hr & Hok & Hjson) Hid. cbn [dom net] in *.
  cbn zeta. run_eff. cbn [form_values with_btnLoading_display with_btnText_display
    with_submitBtn_disabled] in *.
  rewrite Hr. run_eff. rewrite Hok. cbn [negb]. rewrite Hjson. run_eff.
  rewrite triggerN8nWorkflow_cases.
  destruct (n (webhookRequest ticket)) as [r' | e | ]; run_eff; rewrite ?Hid; run_eff;
    (split; [unfold_history; reflexivity | ]);
    (split; [intros Hs; try discriminate Hs | intros Hs; try discriminate Hs]);
    repeat split.
Qed.

(** Witness of C2: the webhook end point is down. *)
Lemma C2_submission_awaits_dispatch_witness :
  fst (App.onSubmit (Samples.world false (Samples.healthIs "connected") Samples.hookDown))
  = Normal tt.
Proof.
  apply (C2_submission_awaits_dispatch
           (Samples.world false (Samples.healthIs "connected") Samples.hookDown)
           Samples.janeTicket (JStr "3f2a9c1e-77aa-4c1b-9a51-0d6e5b8c2f10")).
  - exists (MkResponse 201 (Some Samples.janeTicket)). repeat split.
  - reflexivity.
  - reflexivity.
Defined.

Ltac probe_cases n Hs :=
  unfold reported in Hs;
  destruct (n healthRequest) as [r | e | ]; [ | | discriminate Hs];
  [ destruct (json r) as [health | ];
    [ destruct (getProp health "status") as [e | st];
      [ | destruct (strictEqStr st "connected");
          [ | destruct (strictEqStr st "loading")]]
    | ]
  | ].

(** C3, as stated, fails: the page has its submit control disabled and
    the probe reports [loading]; after the check the control is still
    disabled. *)
Lemma C3_counterexample_loading : ~ submit_enabled_in_every_state.
Proof.
  intros H.
  specialize (H (Samples.world true (Samples.healthIs "loading") Samples.hookDown)
                Samples.statusEl Loading eq_refl eq_refl).
  vm_compute in H. discriminate.
Qed.

(** C3, amended: after a settled health check the submit control is
    enabled when the probe reports connected, unreachable or a probe
    error, the last two relabelling it [Submit (AI Offline)]; when the
    probe reports loading the check leaves the control and its label as
    they were.  The submit handler reads neither the monitor's element
    nor [aiConnected]: its completion and its requests are the same
    whatever the monitor last wrote. *)
Theorem C3_submit_control_after_health_check :
  forall (w : World Page Network) (el : AiStatusEl) (s : HealthState),
    aiStatus (dom w) = Some el ->
    reported (net w healthRequest) = Some s ->
    let after := App.checkAIHealth w in
    fst after = Normal tt /\
    match s with
    | Loading =>
        submitBtn_disabled (dom (snd after)) = submitBtn_disabled (dom w) /\
        btnText_textContent (dom (snd after)) = btnText_textContent (dom w)
    | Connected =>
        submitBtn_disabled (dom (snd after)) = false /\
        btnText_textContent (dom (snd after)) = btnText_textContent (dom w)
    | Unreachable | ProbeError =>
        submitBtn_disabled (dom (snd after)) = false /\
        btnText_textContent (dom (snd after)) = TLit "Submit (AI Offline)"
    end /\
    (forall (b : bool) (f : AiStatusEl -> AiStatusEl),
       let monitored := MkWorld (with_aiConnected b (with_aiStatus f (dom w))) (net w) (trace w) in
       fst (App.onSubmit monitored) = fst (App.onSubmit w) /\
       history (snd (App.onSubmit monitored)) = history (snd (App.onSubmit w))).
Proof.
  intros [d n t] el s Hel Hs. cbn [dom net trace] in *. cbn zeta.
  split; [ | split].
  - run_eff. rewrite Hel. probe_cases n Hs; run_eff; rewrite ?Hel; try reflexivity.
    destruct (getProp health "reason"); reflexivity.
  - run_eff. rewrite Hel. probe_cases n Hs; injection Hs as <-; run_eff;
      rewrite ?Hel; try (split; reflexivity).
    destruct (getProp health "reason"); split; reflexivity.
  - intros b f. run_eff.
    cbn [form_values with_btnLoading_display with_btnText_display
           with_submitBtn_disabled with_aiConnected with_aiStatus].
    destruct (n (createRequest _)) as [r | e | ]; run_eff; auto.
    destruct (negb (ok r)); run_eff; auto.
    destruct (json r) as [tk | ]; run_eff; auto.
    rewrite !triggerN8nWorkflow_cases.
    destruct (n (webhookRequest tk)); run_eff;
      destruct (getProp tk "id"); run_eff; auto.
Qed.

(** Witness of C3: the classification service is unreachable. *)
Lemma C3_submit_control_witness :
  submitBtn_disabled
    (dom (snd (App.checkAIHealth
                 (Samples.world true (Samples.healthIs "unreachable") Samples.hookDown))))
  = false.
Proof.
  apply (C3_submit_control_after_health_check
           (Samples.world true (Samples.healthIs "unreachable") Samples.hookDown)
           Samples.statusEl Unreachable eq_refl eq_refl).
Defined.

(** C7, [checkAIHealth]: a probe that reports loading schedules one
    re-probe, [setTimeout(checkAIHealth, 5000)], five seconds later; a
    probe that reports connected, unreachable or a probe error schedules
    none; without the monitor's element no probe is sent and nothing is
    scheduled. *)
Theorem C7_loading_schedules_one_reprobe :
  forall (w : World Page Network),
    (forall (el : AiStatusEl) (s : HealthState),
       aiStatus (dom w) = Some el ->
       reported (net w healthRequest) = Some s ->
       timersOf (history (snd (App.checkAIHealth w))) =
         timersOf (history w)
         ++ match s with
            | Loading => [(CbCheckAIHealth, 5000%Z)]
            | Connected | Unreachable | ProbeError => []
            end) /\
    (aiStatus (dom w) = None -> snd (App.checkAIHealth w) = w).
Proof.
  intros [d n t]. cbn [dom net trace]. split.
  - intros el s Hel Hs. run_eff. rewrite Hel.
    probe_cases n Hs; injection Hs as <-; run_eff; rewrite ?Hel;
      try destruct (getProp health "reason"); run_eff;
      unfold_history; rewrite ?app_nil_r; reflexivity.
  - intros Hel. run_eff. rewrite Hel. reflexivity.
Qed.

(** Witness of C7: the model is still loading. *)
Lemma C7_loading_schedules_one_reprobe_witness :
  timersOf (history (snd (App.checkAIHealth
     (Samples.world true (Samples.healthIs "loading") Samples.hookDown))))
  = [(CbCheckAIHealth, 5000%Z)].
Proof.
  apply (proj1 (C7_loading_schedules_one_reprobe
           (Samples.world true (Samples.healthIs "loading") Samples.hookDown))
           Samples.statusEl Loading eq_refl eq_refl).
Defined.

(** C9, the submit handler and [createTicket]: the webhook is called only
    after the ticket is created.  The handler sends the create request
    first; it sends a second request, the webhook call for the created
    ticket, only when the create request was answered with an [ok]
    response whose body parses.  When creation fails (a network error or
    a response that is not [ok]) the create request is the only request,
    the failure alert is raised and the success modal is left as it
    was. *)
Theorem C9_webhook_only_after_creation :
  forall (w : World Page Network),
    let req := createRequest (ticketDataOf (form_values (dom w))) in
    let after := App.onSubmit w in
    (exists issued,
       fetchesOf (history (snd after)) = fetchesOf (history w) ++ issued /\
       (issued = [req] \/
        exists ticket, createdTicket (net w req) ticket /\
                       issued = [req; webhookRequest ticket])) /\
    (createFails (net w req) ->
       fst after = Normal tt /\
       fetchesOf (history (snd after)) = fetchesOf (history w) ++ [req] /\
       alertsOf (history (snd after)) =
         alertsOf (history w) ++ ["Failed to submit ticket. Please try again."] /\
       successModal_display (dom (snd after)) = successModal_display (dom w)).
Proof.
  intros [d n t]. cbn [dom net trace]. cbn zeta. run_eff.
  cbn [form_values with_btnLoading_display with_btnText_display with_submitBtn_disabled].
  unfold createFails, createdTicket.
  destruct (n (createRequest _)) as [r | e | ] eqn:Hn; run_eff.
  - destruct (ok r) eqn:Hok; cbn [negb]; run_eff.
    + destruct (json r) as [tk | ] eqn:Hj; run_eff.
      * rewrite triggerN8nWorkflow_cases. split; [ | discriminate].
        exists [createRequest (ticketDataOf (form_values d)); webhookRequest tk].
        split.
        -- destruct (n (webhookRequest tk)); run_eff;
             destruct (getProp tk "id"); run_eff; unfold_history; reflexivity.
        -- right. exists tk. split; [ | reflexivity]. exists r. auto.
      * split; [ | discriminate]. exists [createRequest (ticketDataOf (form_values d))].
        split; [unfold_history; reflexivity | auto].
    + split.
      * exists [createRequest (ticketDataOf (form_values d))].
        split; [unfold_history; reflexivity | auto].
      * intros _. repeat split; unfold_history; reflexivity.
  - split.
    + exists [createRequest (ticketDataOf (form_values d))].
        split; [unfold_history; reflexivity | auto].
    + intros _. repeat split; unfold_history; reflexivity.
  - split; [ | intros []]. exists [createRequest (ticketDataOf (form_values d))].
        split; [unfold_history; reflexivity | auto].
Qed.

(** Witness of C9: the ticket API answers 400. *)
Lemma C9_webhook_only_after_creation_witness :
  fetchesOf (history (snd (App.onSubmit
     (MkWorld (Samples.page false)
        (Samples.serverCreate (Fulfilled (MkResponse 400 (Some JNull)))) []))))
  = [createRequest (ticketDataOf Samples.janeForm)].
Proof.
  apply (C9_webhook_only_after_creation
           (MkWorld (Samples.page false)
              (Samples.serverCreate (Fulfilled (MkResponse 400 (Some JNull)))) [])).
  reflexivity.
Defined.

End AppFacts.

(** ** HTML text *)

Lemma append_nil_l (s : string) : "" +:+ s = s.
Proof. reflexivity. Qed.

Lemma append_cons (c : ascii) (a b : string) : String c a +:+ b = String c (a +:+ b).
Proof. reflexivity. Qed.

Lemma prefix_nil (s : string) : String.prefix "" s = true.
Proof. destruct s; reflexivity. Qed.

Ltac string_simpl :=
  simpl; rewrite ?append_nil_l, ?prefix_nil; cbn [orb andb].

Lemma markup_app (a b : string) : markup (a +:+ b) = markup a + markup b.
Proof.
  induction a as [ | c a IH]; simpl; [reflexivity | ].
  rewrite IH. lia.
Qed.

Lemma wellEscaped_plain (c : ascii) (s : string) :
  Ascii.eqb c "&" = false -> Ascii.eqb c "<" = false -> Ascii.eqb c ">" = false ->
  wellEscaped (String c s) = wellEscaped s.
Proof. intros Ha Hl Hg. cbn [wellEscaped]. rewrite Ha, Hl, Hg. reflexivity. Qed.

Lemma markup_plain (c : ascii) (s : string) :
  Ascii.eqb c "<" = false -> Ascii.eqb c ">" = false ->
  markup (String c s) = markup s.
Proof. intros Hl Hg. cbn [markup]. rewrite Hl, Hg. reflexivity. Qed.

(** The serialised text, by cases on the first character. *)
Ltac serialize_cases c s :=
  cbn [serializeText];
  destruct (Ascii.eqb c "&") eqn:Ha;
  [ | destruct (Ascii.eqb c "<") eqn:Hl;
      [ | destruct (Ascii.eqb c ">") eqn:Hg;
          [ | destruct (Ascii.eqb c nbsp_lead) eqn:Hn;
              [ destruct s as [ | c' s'];
                [ | destruct (Ascii.eqb c' nbsp_trail) eqn:Ht ]
              | ]]]].

Lemma serializeText_bounded (n : nat) :
  forall s, String.length s <= n ->
    wellEscaped (serializeText s) = true /\ markup (serializeText s) = 0.
Proof.
  induction n as [ | n IH]; intros [ | c s] Hlen; cbn [String.length] in Hlen;
    try (split; reflexivity); try lia.
  assert (Hs : String.length s <= n) by lia.
  destruct (IH s Hs) as [IHw IHm].
  serialize_cases c s.
  - string_simpl. auto.
  - string_simpl. auto.
  - string_simpl. auto.
  - rewrite wellEscaped_plain, markup_plain by assumption. auto.
  - cbn [String.length] in Hs.
    destruct (IH s' ltac:(lia)) as [IHw' IHm']. string_simpl. auto.
  - rewrite wellEscaped_plain, markup_plain by assumption. auto.
  - rewrite wellEscaped_plain, markup_plain by assumption. auto.
Qed.


Lemma markup_serializeText (s : string) : markup (serializeText s) = 0.
Proof. apply (serializeText_bounded (String.length s)). lia. Qed.

Lemma unescapeText_nil (fuel : nat) : unescapeText fuel "" = "".
Proof. destruct fuel; reflexivity. Qed.

Lemma unescapeText_plain (fuel : nat) (c : ascii) (s : string) :
  Ascii.eqb c "&" = false ->
  unescapeText (S fuel) (String c s) = String c (unescapeText fuel s).
Proof. intros Ha. cbn [unescapeText]. rewrite Ha. reflexivity. Qed.

(** Reading back what [serializeText] wrote gives the text. *)
Lemma unescape_serializeText_bounded (n : nat) :
  forall s, String.length s <= n ->
    forall fuel, String.length (serializeText s) <= fuel ->
      unescapeText fuel (serializeText s) = s.
Proof.
  induction n as [ | n IH]; intros [ | c s] Hlen; cbn [String.length] in Hlen;
    try lia; intros fuel Hfuel; try apply unescapeText_nil.
  assert (Hs : String.length s <= n) by lia.
  revert Hfuel. serialize_cases c s; intros Hfuel;
    rewrite ?append_cons, ?append_nil_l in *; cbn [String.length] in Hfuel;
    (destruct fuel as [ | fuel]; [lia | ]).
  - apply Ascii.eqb_eq in Ha. subst c. string_simpl. f_equal. apply IH; [lia | lia].
  - apply Ascii.eqb_eq in Hl. subst c. string_simpl. f_equal. apply IH; [lia | lia].
  - apply Ascii.eqb_eq in Hg. subst c. string_simpl. f_equal. apply IH; [lia | lia].
  - rewrite unescapeText_plain by assumption. rewrite unescapeText_nil. reflexivity.
  - apply Ascii.eqb_eq in Hn, Ht. subst c c'. string_simpl.
    cbn [String.length] in Hs. do 2 f_equal. apply IH; [lia | lia].
  - rewrite unescapeText_plain by assumption. f_equal.
    apply (IH (String c' s')); [exact Hs | lia].
  - rewrite unescapeText_plain by assumption. f_equal. apply IH; [lia | lia].
Qed.

Lemma unescape_serializeText (s : string) :
  unescapeText (String.length (serializeText s)) (serializeText s) = s.
Proof. apply (unescape_serializeText_bounded (String.length s)); lia. Qed.

(** ** The dashboard script *)

Section DashboardFacts.
Import Dashboard DashNotions Notions.

Lemma markup_escapeHtml (text : Nullable string) : markup (escapeHtml text) = 0.
Proof.
  unfold escapeHtml. destruct (negb (truthyStr text)); [reflexivity | ].
  destruct text; try reflexivity. apply markup_serializeText.
Qed.

Lemma markup_nl : markup nl = 0.
Proof. reflexivity. Qed.

Lemma markup_dq : markup dq = 0.
Proof. reflexivity. Qed.

Ltac count_literals :=
  repeat match goal with
  | |- context [markup (String ?c ?s)] =>
      let v := eval vm_compute in (markup (String c s)) in
      change (markup (String c s)) with v
  end;
  change (markup EmptyString) with 0.

Ltac count_markup :=
  repeat rewrite markup_app;
  rewrite ?markup_nl, ?markup_dq, ?markup_escapeHtml;
  count_literals.

Lemma markup_renderConfidence (h : Host) (confidence : float) :
  markup (renderConfidence h confidence)
  = 16 + 2 * markup (Number_toString h (Math_round h (PrimFloat.mul confidence 100))).
Proof. unfold renderConfidence. cbn zeta. count_markup. lia. Qed.

Lemma markup_ticketRow (h : Host) (ticket : Ticket) :
  markup (ticketRow h ticket) = rowMachineMarkup h ticket.
Proof.
  unfold ticketRow, rowMachineMarkup. count_markup.
  destruct (truthyStr (ai_category ticket)), (truthyNum (ai_confidence ticket));
    repeat rewrite markup_app; rewrite ?markup_renderConfidence; count_markup; lia.
Qed.


Lemma markup_join (rows : list string) :
  markup (join rows) = sumList (map markup rows).
Proof.
  induction rows as [ | r rows IH]; [reflexivity | ].
  unfold join, sumList in *. cbn [fold_right map]. rewrite markup_app, IH. reflexivity.
Qed.



Ltac run_resolve :=
  cbv beta iota zeta delta
    [resolveTicket closeTicketModal confirm
     tryFinally tryCatch bind ret throw liftE emit getDom modifyDom
     awaitFetch awaitJson console_log console_warn console_error alert setTimeout
     dom net trace fst snd].

Ltac run_dash :=
  cbv beta iota zeta delta
    [resolveTicket refreshData showTicketDetail closeTicketModal confirm complete
     updateStats updateCharts updateCategoryChart updateStatusChart updateTable
     tryFinally tryCatch bind ret throw liftE emit getDom modifyDom
     awaitFetch awaitJson console_log console_warn console_error alert setTimeout
     dom net trace fst snd].

Ltac settle_cases o :=
  let r := fresh "r" in
  let e := fresh "e" in
  destruct o as [r | e | ];
  [ destruct (negb (ok r)); [ | destruct (json r)] | | ].

(** [refreshData] catches what it throws, keeps the environment, and
    sends its two requests whatever their answers. *)
Lemma refreshData_requests (h : Host) (d : Page) (env : Environment) (t : list Event) :
  exists c d' t',
    refreshData h (MkWorld d env t) = (c, MkWorld d' env t') /\
    (forall e, c <> Throw e) /\
    fetchesOf (rev t') = fetchesOf (rev t) ++ [ticketsRequest; analyticsRequest] /\
    alertsOf (rev t') = alertsOf (rev t).
Proof.
  destruct d as [s1 s2 s3 s4 [cc | ] [sc | ] tb td md];
    run_dash; unfold settle, promiseAll2;
    settle_cases (tickets_api env); settle_cases (analytics_api env);
    do 3 (run_dash;
          cbn [categoryChart statusChart with_stats with_categoryChart with_statusChart]);
    do 3 eexists; (split; [reflexivity | ]);
    (split; [intros e'; discriminate | ]);
    cbn [rev]; rewrite ?fetchesOf_app, ?alertsOf_app;
    cbn [fetchesOf alertsOf flat_map app]; rewrite ?app_nil_r, <- ?app_assoc;
    split; reflexivity.
Qed.




(** What [updateTable] writes. *)
Lemma updateTable_run (h : Host) (tickets : Nullable (list Ticket))
    (d : Page) (env : Environment) (t : list Event) :
  updateTable h tickets (MkWorld d env t)
  = (Normal tt, MkWorld (with_ticketsTableBody_innerHTML (tableHtml h tickets) d) env t).
Proof. reflexivity. Qed.




(** C8, [resolveTicket]: the resolve action, which proceeds once the
    user has accepted the confirmation dialog, sends as its first request
    a POST to [/api/tickets/{id}/resolve] with the JSON body
    [{action: "resolved", user: "Dashboard User"}].  A response that is
    not [ok] is a failure: the page is as it was, no refresh request is
    sent, and the failure alert is raised.  An [ok] response closes the
    modal and is followed by the two refresh requests. *)
Theorem C8_resolve_request_and_failure :
  forall (h : Host) (ticketId : string) (w : World Page Environment),
    confirm_answer (net w) = true ->
    let post := resolvePost ticketId in
    let after := resolveTicket h ticketId w in
    (exists more, fetchesOf (history (snd after)) = fetchesOf (history w) ++ post :: more) /\
    (forall r : Response Ticket,
       resolve_api (net w) ticketId = Fulfilled r -> ok r = false ->
       fst after = Normal tt /\
       dom (snd after) = dom w /\
       fetchesOf (history (snd after)) = fetchesOf (history w) ++ [post] /\
       alertsOf (history (snd after)) = alertsOf (history w) ++ [resolveFailedMessage]) /\
    (forall r : Response Ticket,
       resolve_api (net w) ticketId = Fulfilled r -> ok r = true ->
       fetchesOf (history (snd after)) =
         fetchesOf (history w) ++ [post; ticketsRequest; analyticsRequest] /\
       ticketModal_display (dom (snd after)) = "none").
Proof.
  intros h ticketId [d env t] Hyes. cbn [dom net trace] in *. cbn zeta.
  assert (Hrun : forall r, resolve_api env ticketId = Fulfilled r -> ok r = true ->
            exists c d' t',
              resolveTicket h ticketId (MkWorld d env t) = (c, MkWorld d' env t') /\
              ticketModal_display d' = "none" /\
              fetchesOf (rev t') =
                fetchesOf (rev t)
                ++ [resolveRequest ticketId; ticketsRequest; analyticsRequest]).
  { intros r Hr Hok. run_resolve. rewrite Hyes. cbn [negb]. run_resolve.
    rewrite Hr. run_resolve. rewrite Hok. cbn [negb]. run_resolve.
    destruct (refreshData_requests h (with_ticketModal_display "none" d) env
                (EvFetch (resolveRequest ticketId)
                 :: EvConfirm "Are you sure you want to mark this ticket as resolved?" :: t))
      as (c & d' & t' & E & Hc & Hf & _).
    rewrite E.
    assert (Hmodal : ticketModal_display d' = "none").
    { revert E. clear. destruct d as [s1 s2 s3 s4 [cc | ] [sc | ] tb td md];
        run_dash; unfold settle, promiseAll2;
        settle_cases (tickets_api env); settle_cases (analytics_api env);
        do 3 (run_dash;
              cbn [categoryChart statusChart with_stats with_categoryChart
                   with_statusChart with_ticketModal_display]);
        intros E; injection E as _ <- _; reflexivity. }
    destruct c as [[] | e | ]; [ | destruct (Hc e eq_refl) | ]; run_resolve;
      do 3 eexists; (split; [reflexivity | ]); (split; [exact Hmodal | ]);
      cbn [rev] in *; rewrite ?fetchesOf_app in *;
      cbn [fetchesOf flat_map app] in *; rewrite ?app_nil_r, <- ?app_assoc in *;
      cbn [app] in *; exact Hf. }
  split; [ | split].
  - destruct (resolve_api env ticketId) as [r | e | ] eqn:Hr.
    + destruct (ok r) eqn:Hok.
      * destruct (Hrun r eq_refl Hok) as (c & d' & t' & E & _ & Hf).
        rewrite E. exists [ticketsRequest; analyticsRequest]. exact Hf.
      * exists []. run_resolve. rewrite Hyes. cbn [negb]. run_resolve.
        rewrite Hr. run_resolve. rewrite Hok. cbn [negb]. run_resolve.
        unfold_history. reflexivity.
    + exists []. run_resolve. rewrite Hyes. cbn [negb]. run_resolve.
      rewrite Hr. run_resolve. unfold_history. reflexivity.
    + exists []. run_resolve. rewrite Hyes. cbn [negb]. run_resolve.
      rewrite Hr. run_resolve. unfold_history. reflexivity.
  - intros r Hr Hok. run_resolve. rewrite Hyes. cbn [negb]. run_resolve.
    rewrite Hr. run_resolve. rewrite Hok. cbn [negb]. run_resolve.
    repeat split; unfold_history; reflexivity.
  - intros r Hr Hok. destruct (Hrun r Hr Hok) as (c & d' & t' & E & Hm & Hf).
    rewrite E. split; [exact Hf | exact Hm].
Qed.

(** Witness of C8: the user confirms, the ticket is unknown, the back end
    answers 404. *)
Lemma C8_resolve_request_and_failure_witness :
  dom (snd (resolveTicket DashSamples.plainHost "no-such-ticket"
              (DashSamples.world 404 true)))
  = DashSamples.emptyPage /\
  fetchesOf (history (snd (resolveTicket DashSamples.plainHost "no-such-ticket"
                             (DashSamples.world 404 true))))
  = [resolveRequest "no-such-ticket"].
Proof.
  destruct (C8_resolve_request_and_failure DashSamples.plainHost "no-such-ticket"
              (DashSamples.world 404 true) eq_refl) as (_ & Hfail & _).
  destruct (Hfail (MkResponse 404 (Some DashSamples.janeTicket)) eq_refl eq_refl)
    as (_ & Hdom & Hfetch & _).
  split; [exact Hdom | exact Hfetch].
Defined.

End DashboardFacts.

(** ** The ticket lifecycle *)

Section BackendFacts.
Import Backend.

Lemma sumValues_empty : sumValues ∅ = 0.
Proof. unfold sumValues. apply map_fold_empty. Qed.

Lemma sumValues_insert_fresh (k : string) (v : nat) (counts : gmap string nat) :
  counts !! k = None -> sumValues (<[k := v]> counts) = v + sumValues counts.
Proof.
  intros Hk. unfold sumValues.
  rewrite map_fold_insert_L; [reflexivity | intros; simpl; lia | exact Hk].
Qed.

Lemma sumValues_delete (k : string) (v : nat) (counts : gmap string nat) :
  counts !! k = Some v -> sumValues counts = v + sumValues (delete k counts).
Proof.
  intros Hk. unfold sumValues.
  rewrite (map_fold_delete_L _ _ k v counts); [reflexivity | intros; simpl; lia | exact Hk].
Qed.

(** Counting one more ticket adds one to the sum of the counts. *)
Lemma sumValues_increment (k : string) (counts : gmap string nat) :
  sumValues (increment k counts) = S (sumValues counts).
Proof.
  unfold increment. destruct (counts !! k) as [v | ] eqn:Hk; cbn [default].
  - rewrite <- insert_delete_eq.
    rewrite sumValues_insert_fresh by apply lookup_delete_eq.
    rewrite (sumValues_delete k v counts Hk). unfold Datatypes.id. lia.
  - rewrite sumValues_insert_fresh by exact Hk. lia.
Qed.

Lemma sumValues_status_pass (tickets : list Ticket) (counts : gmap string nat) :
  sumValues (fold_left (fun counts t => increment (statusName (status t)) counts)
               tickets counts)
  = length tickets + sumValues counts.
Proof.
  revert counts. induction tickets as [ | t tickets IH]; intros counts; cbn [fold_left length].
  - reflexivity.
  - rewrite IH, sumValues_increment. lia.
Qed.

(** C4, the Analytics Aggregator: the per-status counts of a snapshot add
    up to its total, for every list of tickets and so for every store. *)
Theorem C4_status_counts_sum_to_total :
  forall (unclassified : bool),
    (forall tickets : list Ticket,
       sumValues (status_counts (summarize unclassified tickets))
       = total_tickets (summarize unclassified tickets)) /\
    (forall store : Store,
       sumValues (status_counts (analytics unclassified store))
       = total_tickets (analytics unclassified store)) /\
    (forall store : Store,
       total_tickets (analytics unclassified store) = size store).
Proof.
  intros unclassified.
  assert (H : forall tickets : list Ticket,
             sumValues (status_counts (summarize unclassified tickets))
             = total_tickets (summarize unclassified tickets)).
  { intros tickets. cbn [summarize status_counts total_tickets].
    rewrite sumValues_status_pass, sumValues_empty. lia. }
  split; [exact H | split].
  - intros store. apply H.
  - intros store. unfold analytics, list_tickets. cbn [summarize total_tickets].
    rewrite length_fmap. apply length_map_to_list.
Qed.

(** A created ticket gets an id that no ticket of the store has. *)
Lemma create_fresh (store store' : Store) (input : TicketInput) (now : Z) (t : Ticket) :
  create store input now = inr (store', t) ->
  store !! id t = None /\ store' = <[id t := t]> store /\
  status t = pending /\ ai_category t = None /\ ai_confidence t = None /\
  ai_response t = None.
Proof.
  unfold create. destruct (negb (validInput input)); [discriminate | ].
  intros H. injection H as <- <-. cbn [id status ai_category ai_confidence ai_response].
  repeat split.
  apply not_elem_of_dom. apply is_fresh.
Qed.

Lemma update_lookup (store store' : Store) (i j : string) (p : PartialFields) (t' : Ticket) :
  update store i p = inr (store', t') ->
  store' !! j = if decide (i = j) then Some t' else store !! j.
Proof.
  unfold update. destruct (store !! i) as [t | ]; [ | discriminate].
  intros H. injection H as <- <-. apply lookup_insert.
Qed.

(** On a ticket of the store an attempt writes the classification, or
    raises a failure of the classification service. *)
Lemma attempt_cases (reply : Category -> string) (store : Store) (i : string)
    (t : Ticket) (answer : ServiceAnswer) :
  store !! i = Some t ->
  (exists c q,
     attempt reply store i answer
     = ret (<[i := applyFields (classificationFields reply t c q) t]> store,
            ClassificationResult c q)) \/
  (exists e, classifierFailure e = true /\ attempt reply store i answer = raise e).
Proof.
  intros Hi. unfold attempt, get, update. rewrite Hi. cbn [ofStore bind ret].
  destruct answer as [ | | | scores]; cbn [callService bind raise ret];
    try (right; eexists; split; [ | reflexivity]; reflexivity).
  unfold selectTop. destruct (topLabel scores) as [[c q] | ];
    [ | right; eexists; split; [ | reflexivity]; reflexivity].
  destruct (inUnitInterval q);
    [ | right; eexists; split; [ | reflexivity]; reflexivity].
  left. exists c, q. reflexivity.
Qed.

Lemma classify_of_success (reply : Category -> string) (store store' : Store)
    (i : string) (answer : ServiceAnswer) (r : ClassifyResult) :
  attempt reply store i answer = ret (store', r) ->
  classify reply store i answer = ret (store', r).
Proof. intros E. unfold classify. rewrite E. reflexivity. Qed.

Lemma classify_of_failure (reply : Category -> string) (store : Store)
    (i : string) (answer : ServiceAnswer) (e : Exn) :
  attempt reply store i answer = raise e ->
  classifierFailure e = true ->
  classify reply store i answer = ret (store, ClassificationUnavailable).
Proof. intros E He. unfold classify. rewrite E. cbn [catch raise]. rewrite He. reflexivity. Qed.

(** An attempt on an unknown id raises the store's error, and the
    boundary lets it through. *)
Lemma classify_unknown (reply : Category -> string) (store : Store)
    (i : string) (answer : ServiceAnswer) :
  store !! i = None ->
  classify reply store i answer = raise (StoreFailed NotFound).
Proof. intros Hi. unfold classify, attempt, get. rewrite Hi. reflexivity. Qed.

(** One operation keeps every ticket and moves no status backwards. *)
Lemma step_forward (reply : Category -> string) (store : Store) (op : Op)
    (i : string) (t : Ticket) :
  store !! i = Some t ->
  exists t', step reply store op !! i = Some t' /\ rank (status t) <= rank (status t').
Proof.
  intros Hi. destruct op as [input now | j answer | j actor now]; cbn [step].
  - destruct (create store input now) as [e | [store' t0]] eqn:Hc; [eauto | ].
    destruct (create_fresh _ _ _ _ _ Hc) as (Hfresh & -> & _).
    exists t. split; [ | lia].
    rewrite lookup_insert_ne; [exact Hi | ]. intros E. rewrite E in Hfresh. congruence.
  - destruct (store !! j) as [tj | ] eqn:Hj.
    + destruct (attempt_cases reply store j tj answer Hj) as [(c & q & E) | (e & Hfail & E)].
      * rewrite (classify_of_success _ _ _ _ _ _ E). cbv beta iota delta [ret].
        rewrite lookup_insert.
        destruct (decide (j = i)) as [-> | Hne]; [ | eauto].
        rewrite Hi in Hj. injection Hj as <-.
        eexists. split; [reflexivity | ].
        cbn [applyFields classificationFields status set_status].
        destruct (status t); cbn [rank]; lia.
      * rewrite (classify_of_failure _ _ _ _ _ E Hfail). cbv beta iota delta [ret]. eauto.
    + rewrite (classify_unknown _ _ _ _ Hj). cbv beta iota delta [raise]. eauto.
  - unfold resolve.
    destruct (store !! j) as [tj | ] eqn:Hj; [ | eauto].
    destruct (status tj) eqn:Hst; [ | | eauto];
      unfold update; rewrite Hj; rewrite lookup_insert;
      (destruct (decide (j = i)) as [-> | Hne]; [ | eauto]);
      rewrite Hi in Hj; injection Hj as <-;
      (eexists; split; [reflexivity | ]);
      cbn [applyFields status set_status rank]; destruct (status t); cbn [rank]; lia.
Qed.

(** C5, the ticket status: a ticket starts at pending, under an id that
    was free; every operation (create, classify, resolve) keeps every
    ticket and leaves its status where it is or moves it forward along
    pending, classified, resolved; so over any sequence of operations a
    resolved ticket stays resolved. *)
Theorem C5_status_moves_forward :
  forall (reply : Category -> string),
    (forall (store store' : Store) (input : TicketInput) (now : Z) (t : Ticket),
       create store input now = inr (store', t) ->
       status t = pending /\ store !! id t = None /\ store' !! id t = Some t) /\
    (forall (store : Store) (op : Op) (i : string) (t : Ticket),
       store !! i = Some t ->
       exists t', step reply store op !! i = Some t' /\
                  rank (status t) <= rank (status t')) /\
    (forall (ops : list Op) (store : Store) (i : string) (t : Ticket),
       store !! i = Some t ->
       exists t', run reply store ops !! i = Some t' /\
                  rank (status t) <= rank (status t') /\
                  (status t = resolved -> status t' = resolved)).
Proof.
  intros reply. split; [ | split].
  - intros store store' input now t Hc.
    destruct (create_fresh _ _ _ _ _ Hc) as (Hfresh & -> & Hst & _).
    split; [exact Hst | split; [exact Hfresh | apply lookup_insert_eq]].
  - intros store op i t. apply step_forward.
  - induction ops as [ | op ops IH]; intros store i t Hi; cbn [run fold_left].
    + exists t. split; [exact Hi | split; [lia | auto]].
    + destruct (step_forward reply store op i t Hi) as (t1 & H1 & Hle1).
      destruct (IH (step reply store op) i t1 H1) as (t' & H' & Hle' & _).
      exists t'. split; [exact H' | split; [lia | ]].
      intros Hres. rewrite Hres in Hle1. cbn [rank] in Hle1.
      destruct (status t'); cbn [rank] in *; [lia | lia | reflexivity].
Qed.

(** Witness of C5: Jane's ticket is classified, resolved, and then
    classified once more. *)
Lemma C5_status_moves_forward_witness :
  exists t',
    run sampleReply janeStore
      [OpClassify "0" (Scores [(PTO, 92 # 100)]); OpResolve "0" "Alice" 2000;
       OpClassify "0" (Scores [(Payroll, 80 # 100)])] !! "0" = Some t' /\
    0 <= rank (status t').
Proof.
  destruct (C5_status_moves_forward sampleReply) as (_ & _ & Hrun).
  destruct (Hrun [OpClassify "0" (Scores [(PTO, 92 # 100)]); OpResolve "0" "Alice" 2000;
                  OpClassify "0" (Scores [(Payroll, 80 # 100)])]
              janeStore "0"
              (MkTicket "0" "Jane Doe" "jane@co.com" "PTO balance"
                 "How many days do I have left?" pending None None None 1000 None None)
              eq_refl) as (t' & Ht' & Hle & _).
  exists t'. split; [exact Ht' | exact Hle].
Defined.



End BackendFacts.

(** * Further properties of the scripts *)

(** ** New events of a run *)

Import Notions.

Lemma newEvents_intro {D N} (d d' : D) (n n' : N) (t new : list Event) :
  newEvents (MkWorld d n t) (MkWorld d' n' (new ++ t)) = rev new.
Proof.
  unfold newEvents, history. cbn [trace]. rewrite rev_app_distr.
  rewrite <- (length_rev t). rewrite skipn_app, Nat.sub_diag, skipn_all.
  reflexivity.
Qed.

Ltac trace_prefix l t :=
  lazymatch l with
  | t => constr:(@nil Event)
  | ?e :: ?l' => let r := trace_prefix l' t in constr:(e :: r)
  end.

Ltac new_events :=
  repeat match goal with
  | |- context [newEvents (MkWorld ?d ?n ?t) (MkWorld ?d' ?n' ?t')] =>
      let new := trace_prefix t' t in
      change (newEvents (MkWorld d n t) (MkWorld d' n' t'))
        with (newEvents (MkWorld d n t) (MkWorld d' n' (new ++ t)));
      rewrite (newEvents_intro d d' n n' t new)
  end;
  cbn [rev app fetchesOf alertsOf timersOf flat_map].

(** ** The form script, continued *)

Section AppMoreFacts.
Import App Monitor Notions.

Ltac run_app :=
  cbv beta iota zeta delta
    [onSubmit checkAIHealth createTicket showSuccess form_reset setLoading closeModal
     setStatusIcon setStatusText classList_add
     tryFinally tryCatch bind ret throw liftE emit getDom modifyDom
     awaitFetch awaitJson console_log console_warn console_error alert setTimeout
     dom net trace fst snd].

Ltac page_simpl :=
  cbn [aiStatus submitBtn_disabled btnText_textContent btnText_display
       btnLoading_display successModal_display ticketIdSpan_textContent aiConnected
       form_values form_defaults
       with_aiStatus with_submitBtn_disabled with_btnText_textContent
       with_btnText_display with_btnLoading_display with_successModal_display
       with_ticketIdSpan_textContent with_aiConnected with_form_values
       fst snd dom net trace] in *.

(** The runs of the submit handler, leaf by leaf. *)
Ltac submit_cases n :=
  run_app; page_simpl;
  destruct (n (createRequest _)) as [r | e | ] eqn:Hcreate; run_app;
  [ destruct (ok r) eqn:Hok; cbn [negb]; run_app;
    [ destruct (json r) as [tk | ] eqn:Hjson; run_app;
      [ rewrite triggerN8nWorkflow_cases;
        destruct (n (webhookRequest tk)) as [r' | e' | ] eqn:Hhook; run_app;
        [ destruct (getProp tk "id") as [e'' | tid] eqn:Hid; run_app
        | destruct (getProp tk "id") as [e'' | tid] eqn:Hid; run_app
        | ]
      | ]
    | ]
  |
  | ];
  page_simpl.

(** The submit handler lets no error escape, and when it completes it has
    released the submit control and hidden the spinner, after a success
    as after a failure; while it is suspended on a request the control is
    disabled and the spinner is shown. *)
Theorem submit_handler_releases_control :
  forall (w : World Page Network),
    let after := App.onSubmit w in
    (forall e, fst after <> Throw e) /\
    (fst after = Normal tt ->
       submitBtn_disabled (dom (snd after)) = false /\
       btnText_display (dom (snd after)) = "inline" /\
       btnLoading_display (dom (snd after)) = "none") /\
    (fst after = Hang ->
       submitBtn_disabled (dom (snd after)) = true /\
       btnText_display (dom (snd after)) = "none" /\
       btnLoading_display (dom (snd after)) = "inline-flex").
Proof.
  intros [d n t]. cbn zeta. submit_cases n;
    (split; [intros err; discriminate | ]);
    split; intros Hc; try discriminate Hc; repeat split.
Qed.

(** Witness: the ticket API is down. *)
Lemma submit_handler_releases_control_witness :
  submitBtn_disabled
    (dom (snd (App.onSubmit
       (MkWorld (Samples.page false)
          (Samples.serverCreate (Rejected (TypeError "Failed to fetch"))) []))))
  = false.
Proof.
  apply (submit_handler_releases_control
           (MkWorld (Samples.page false)
              (Samples.serverCreate (Rejected (TypeError "Failed to fetch"))) [])).
  reflexivity.
Defined.

(** A completed submission gives one feedback.  Either the ticket was
    created and has an [id] member to read: the success modal is shown
    with that id, no alert is raised and the form is reset; or one alert
    is raised, the success modal and the ticket id are as they were, and
    the form keeps what was entered. *)
Theorem submit_handler_gives_one_feedback :
  forall (w : World Page Network),
    let req := createRequest (ticketDataOf (form_values (dom w))) in
    let after := App.onSubmit w in
    fst after = Normal tt ->
    (exists ticket tid,
       createdTicket (net w req) ticket /\
       getProp ticket "id" = inr tid /\
       successModal_display (dom (snd after)) = "flex" /\
       ticketIdSpan_textContent (dom (snd after)) = TValue tid /\
       alertsOf (newEvents w (snd after)) = [] /\
       form_values (dom (snd after)) = form_defaults (dom w))
    \/
    (alertsOf (newEvents w (snd after)) = ["Failed to submit ticket. Please try again."] /\
     successModal_display (dom (snd after)) = successModal_display (dom w) /\
     ticketIdSpan_textContent (dom (snd after)) = ticketIdSpan_textContent (dom w) /\
     form_values (dom (snd after)) = form_values (dom w)).
Proof.
  intros [d n t]. cbn zeta. cbn [dom net]. unfold createdTicket.
  submit_cases n; intros Hc; try discriminate Hc; new_events;
    first
      [ right; repeat split; reflexivity
      | left; exists tk, tid; split; [exists r; auto | repeat split; assumption || reflexivity] ].
Qed.

(** Witness: the ticket is created and the webhook is down. *)
Lemma submit_handler_gives_one_feedback_witness :
  exists tid,
    ticketIdSpan_textContent
      (dom (snd (App.onSubmit
         (Samples.world false (Samples.healthIs "connected") Samples.hookDown))))
    = TValue tid.
Proof.
  destruct (submit_handler_gives_one_feedback
              (Samples.world false (Samples.healthIs "connected") Samples.hookDown)
              eq_refl)
    as [(ticket & tid & _ & _ & _ & Hid & _) | (Halert & _)].
  - exists tid. exact Hid.
  - vm_compute in Halert. discriminate Halert.
Defined.

(** What the handler reads of the created ticket is its [id] member, and
    it reads it after the webhook call.  A create response whose body is
    JSON [null] ends in the failure alert although the ticket request and
    the webhook request were both sent; a body that is an object without
    [id] is a success whose modal shows [undefined]. *)
Theorem submit_handler_reads_id_after_dispatch :
  forall (w : World Page Network) (r : Response JsVal),
    let req := createRequest (ticketDataOf (form_values (dom w))) in
    let after := App.onSubmit w in
    net w req = Fulfilled r -> ok r = true ->
    (json r = Some JNull ->
     settled (net w (webhookRequest JNull)) = true ->
     fetchesOf (newEvents w (snd after)) = [req; webhookRequest JNull] /\
     alertsOf (newEvents w (snd after)) = ["Failed to submit ticket. Please try again."] /\
     successModal_display (dom (snd after)) = successModal_display (dom w)) /\
    (forall props,
       json r = Some (JObj props) ->
       lookupProp "id" props = JUndefined ->
       settled (net w (webhookRequest (JObj props))) = true ->
       fetchesOf (newEvents w (snd after)) = [req; webhookRequest (JObj props)] /\
       alertsOf (newEvents w (snd after)) = [] /\
       successModal_display (dom (snd after)) = "flex" /\
       ticketIdSpan_textContent (dom (snd after)) = TValue JUndefined).
Proof.
  intros [d n t] r. cbn zeta. cbn [dom net]. intros Hr Hokr. split.
  - intros Hj Hs. run_app. page_simpl. rewrite Hr. run_app. rewrite Hokr. cbn [negb].
    rewrite Hj. run_app. rewrite triggerN8nWorkflow_cases.
    destruct (n (webhookRequest JNull)); try discriminate Hs; cbn [getProp];
      run_app; page_simpl; new_events; repeat split.
  - intros props Hj Hid Hs. run_app. page_simpl. rewrite Hr. run_app. rewrite Hokr.
    cbn [negb]. rewrite Hj. run_app. rewrite triggerN8nWorkflow_cases.
    destruct (n (webhookRequest (JObj props))); try discriminate Hs;
      cbn [getProp]; rewrite Hid; run_app; page_simpl; new_events; repeat split.
Qed.

(** Witness: the ticket API answers 201 with the body [null]. *)
Lemma submit_handler_reads_id_after_dispatch_witness :
  alertsOf (newEvents
    (MkWorld (Samples.page false)
       (Samples.serverCreate (Fulfilled (MkResponse 201 (Some JNull)))) [])
    (snd (App.onSubmit
       (MkWorld (Samples.page false)
          (Samples.serverCreate (Fulfilled (MkResponse 201 (Some JNull)))) []))))
  = ["Failed to submit ticket. Please try again."].
Proof.
  apply (submit_handler_reads_id_after_dispatch
           (MkWorld (Samples.page false)
              (Samples.serverCreate (Fulfilled (MkResponse 201 (Some JNull)))) [])
           (MkResponse 201 (Some JNull)) eq_refl eq_refl); reflexivity.
Defined.

Lemma classList_kept (c x : string) (l : list string) :
  In c l -> In c (if existsb (String.eqb x) l then l else l ++ [x]).
Proof. intros H. destruct (existsb (String.eqb x) l); [exact H | apply in_or_app; auto]. Qed.

(** The health check only adds.  With the monitor's element on the page
    it sends one request, the probe; it removes no class from the
    element, so the classes of earlier states stay; it never clears
    [aiConnected], which is set exactly when the probe reports connected;
    and it touches neither the success modal nor the form. *)
Theorem health_check_only_adds :
  forall (w : World Page Network) (el : AiStatusEl),
    aiStatus (dom w) = Some el ->
    let after := App.checkAIHealth w in
    fetchesOf (newEvents w (snd after)) = [healthRequest] /\
    (exists el', aiStatus (dom (snd after)) = Some el' /\
                 forall c, In c (classList el) -> In c (classList el')) /\
    aiConnected (dom (snd after)) =
      (aiConnected (dom w)
       || match reported (net w healthRequest) with
          | Some Connected => true
          | _ => false
          end) /\
    successModal_display (dom (snd after)) = successModal_display (dom w) /\
    ticketIdSpan_textContent (dom (snd after)) = ticketIdSpan_textContent (dom w) /\
    form_values (dom (snd after)) = form_values (dom w).
Proof.
  intros [d n t] el Hel. cbn [dom net] in *. cbn zeta. unfold reported.
  run_app. rewrite Hel.
  destruct (n healthRequest) as [r | e | ];
    [ destruct (json r) as [health | ];
      [ destruct (getProp health "status") as [e | st];
        [ | destruct (strictEqStr st "connected");
            [ | destruct (strictEqStr st "loading");
                [ | destruct (getProp health "reason")]]]
      | ]
    | | ];
    run_app; page_simpl; rewrite ?Hel; cbn [option_map classList];
    new_events; rewrite ?orb_true_r, ?orb_false_r;
    (split; [reflexivity | ]);
    (split; [eexists; split; [reflexivity | ]; cbn [classList]; intros c Hc;
             repeat apply classList_kept; exact Hc | ]);
    repeat split.
Qed.

(** Witness: the model is loading, then the probe is repeated. *)
Lemma health_check_only_adds_witness :
  exists el',
    aiStatus (dom (snd (App.checkAIHealth
      (Samples.world true (Samples.healthIs "loading") Samples.hookDown)))) = Some el' /\
    forall c, In c (classList Samples.statusEl) -> In c (classList el').
Proof.
  apply (health_check_only_adds
           (Samples.world true (Samples.healthIs "loading") Samples.hookDown)
           Samples.statusEl eq_refl).
Defined.

End AppMoreFacts.

(** ** The dashboard script, continued *)

Section DashboardMoreFacts.
Import Dashboard DashNotions DashboardHandlers.

Lemma serializeText_plain (s : string) : plainText s = true -> serializeText s = s.
Proof.
  induction s as [ | c s IH]; [reflexivity | ].
  cbn [plainText]. rewrite !andb_true_iff, !negb_true_iff.
  intros ((((Ha & Hl) & Hg) & Hn) & Hs).
  cbn [serializeText]. rewrite Ha, Hl, Hg.
  destruct (Ascii.eqb c nbsp_lead); [ | rewrite (IH Hs); reflexivity].
  destruct s as [ | c' s']; [reflexivity | ].
  cbn [andb] in Hn. rewrite Hn, (IH Hs). reflexivity.
Qed.

Lemma escapeHtml_Val (s : string) : escapeHtml (Val s) = serializeText s.
Proof.
  unfold escapeHtml. cbn [truthyStr].
  destruct (String.eqb s "") eqn:E; [ | reflexivity].
  apply String.eqb_eq in E. subst s. reflexivity.
Qed.

(** [escapeHtml] leaves a text without [&], [<], [>] and U+00A0 as it
    is, whatever other characters it holds. *)
Theorem escapeHtml_keeps_plain_text :
  forall s : string, plainText s = true -> escapeHtml (Val s) = s.
Proof. intros s Hs. rewrite escapeHtml_Val. apply serializeText_plain, Hs. Qed.

(** Witness: a text with a quote, an accent and a copyright sign. *)
Lemma escapeHtml_keeps_plain_text_witness :
  escapeHtml (Val "© 2025 Zoë O'Neil") = "© 2025 Zoë O'Neil".
Proof. apply escapeHtml_keeps_plain_text. reflexivity. Defined.

(** [escapeHtml] tells texts apart: two texts with the same escaped form
    are the same text. *)
Theorem escapeHtml_injective :
  forall a b : string, escapeHtml (Val a) = escapeHtml (Val b) -> a = b.
Proof.
  intros a b. rewrite !escapeHtml_Val. intros E.
  rewrite <- (unescape_serializeText a), <- (unescape_serializeText b), E.
  reflexivity.
Qed.

(** Witness: a text and itself. *)
Lemma escapeHtml_injective_witness : "a < b" = "a < b".
Proof. apply escapeHtml_injective. reflexivity. Defined.

Lemma countUnits_highSurrogate (lead : ascii) (rest : string) :
  countUnits 0 (highSurrogate lead rest) = 1.
Proof. reflexivity. Qed.

(** [substring(0, n)] has at most [n] code units. *)
Lemma takeUnits_bound (s : string) :
  forall n pending, countUnits pending (takeUnits n pending s) <= n.
Proof.
  induction s as [ | c s IH]; intros n pending; cbn [takeUnits countUnits]; [lia | ].
  destruct pending as [ | p]; [ | cbn [countUnits]; apply IH].
  destruct (sequenceOf c) as [more units] eqn:Hseq.
  destruct (units <=? n)%nat eqn:Hle.
  - apply Nat.leb_le in Hle. cbn [countUnits]. rewrite Hseq.
    specialize (IH (n - units) more). lia.
  - destruct (n =? 0)%nat eqn:Hz; [cbn [countUnits]; lia | ].
    apply Nat.eqb_neq in Hz. rewrite countUnits_highSurrogate. lia.
Qed.

(** [substring(0, n)] is the whole string when it has at most [n] code
    units. *)
Lemma takeUnits_all (s : string) :
  forall n pending, countUnits pending s <= n -> takeUnits n pending s = s.
Proof.
  induction s as [ | c s IH]; intros n pending; cbn [takeUnits countUnits]; [reflexivity | ].
  destruct pending as [ | p]; [ | intros H; f_equal; apply IH, H].
  destruct (sequenceOf c) as [more units] eqn:Hseq. intros H.
  assert (Hle : (units <=? n)%nat = true) by (apply Nat.leb_le; lia).
  rewrite Hle. f_equal. apply IH. lia.
Qed.

Lemma countUnits_dots (pending : nat) : countUnits pending "..." <= 3.
Proof. destruct pending as [ | [ | [ | [ | p]]]]; vm_compute; lia. Qed.

Lemma countUnits_append_dots (s : string) :
  forall pending, countUnits pending (s +:+ "...") <= countUnits pending s + 3.
Proof.
  induction s as [ | c s IH]; intros pending.
  - rewrite append_nil_l. pose proof (countUnits_dots pending).
    change (countUnits pending "") with 0. lia.
  - rewrite append_cons. cbn [countUnits].
    destruct pending as [ | p]; [ | apply IH].
    destruct (sequenceOf c) as [more units]. specialize (IH more). lia.
Qed.

(** The second cell of a row shows the subject when there is one.
    Without a subject it shows the first 30 UTF-16 code units of the
    description followed by three dots, at most 33 code units: the whole
    description when it is that short, and the word [undefined] when the
    description is absent too. *)
Theorem row_shows_subject_or_excerpt :
  forall ticket : Ticket,
    (truthyStr (subject ticket) = true -> subjectOrExcerpt ticket = subject ticket) /\
    (truthyStr (subject ticket) = false ->
       exists text,
         subjectOrExcerpt ticket = Val text /\
         unitLength text <= 33 /\
         (forall d, description ticket = Val d ->
            text = substring0 30 d +:+ "..." /\
            unitLength (substring0 30 d) <= 30 /\
            (unitLength d <= 30 -> text = d +:+ "...")) /\
         (description ticket = Null \/ description ticket = Undefined ->
            text = "undefined...")).
Proof.
  intros ticket. unfold subjectOrExcerpt. split; intros Hs; rewrite Hs; [reflexivity | ].
  eexists. split; [reflexivity | ]. split; [ | split].
  - destruct (description ticket) as [ | | d]; [vm_compute; lia | vm_compute; lia | ].
    unfold unitLength, substring0.
    pose proof (countUnits_append_dots (takeUnits 30 0 d) 0).
    pose proof (takeUnits_bound d 30 0). lia.
  - intros d ->. split; [reflexivity | ]. split; [apply takeUnits_bound | ].
    intros Hd. unfold substring0. rewrite takeUnits_all by exact Hd. reflexivity.
  - intros [-> | ->]; reflexivity.
Qed.

(** Witness: a ticket without subject whose description has 40 accented
    letters. *)
Lemma row_shows_subject_or_excerpt_witness :
  subjectOrExcerpt
    (DashSamples.ticketWith (Val "Jane Doe") (Val "")
       (Val "éééééééééééééééééééééééééééééééééééééééé") Null)
  = Val "éééééééééééééééééééééééééééééé...".
Proof.
  destruct (row_shows_subject_or_excerpt
              (DashSamples.ticketWith (Val "Jane Doe") (Val "")
                 (Val "éééééééééééééééééééééééééééééééééééééééé") Null))
    as (_ & H).
  destruct (H eq_refl) as (text & Htext & _ & Hd & _).
  destruct (Hd _ eq_refl) as (Hcut & _).
  rewrite Htext, Hcut. reflexivity.
Defined.

Lemma sumList_Permutation (a b : list nat) : Permutation a b -> sumList a = sumList b.
Proof.
  unfold sumList.
  induction 1 as [ | x a b _ IH | x y a | a b c _ IH1 _ IH2]; cbn [fold_right] in *;
    lia.
Qed.

(** What [updateTable] writes into the table body.  For a missing or an
    empty list of tickets it is the empty-state row, which has 12 markup
    delimiters.  For tickets, when the engine's sort returns the tickets
    it was given in some order, the markup delimiters written are those
    of the templates and machine-written members of the tickets'
    rows, whatever the order they are sorted into. *)
Theorem table_markup_is_sum_of_rows :
  forall (h : Host) (tickets : Nullable (list Ticket)) (w : World Page Environment),
    let written := ticketsTableBody_innerHTML (dom (snd (updateTable h tickets w))) in
    (tickets = Null \/ tickets = Undefined \/ tickets = Val [] ->
       written = emptyTable /\ markup written = 12) /\
    (forall (t : Ticket) (ts : list Ticket),
       tickets = Val (t :: ts) ->
       Permutation (Array_sort h (byCreatedDesc h) (t :: ts)) (t :: ts) ->
       markup written = sumList (map (rowMachineMarkup h) (t :: ts))).
Proof.
  intros h tickets [d env tr]. cbn zeta. rewrite updateTable_run.
  cbn [fst snd dom ticketsTableBody_innerHTML with_ticketsTableBody_innerHTML].
  split.
  - intros [-> | [-> | ->]]; split; reflexivity.
  - intros t ts -> Hperm. cbn [tableHtml]. rewrite markup_join, map_map.
    rewrite (map_ext _ _ (markup_ticketRow h)).
    apply sumList_Permutation. apply Permutation_map. exact Hperm.
Qed.

(** Witness: two tickets, and a sort that reverses the array. *)
Lemma table_markup_is_sum_of_rows_witness :
  markup (ticketsTableBody_innerHTML
            (dom (snd (updateTable DashSamples.reversingHost
                         (Val [DashSamples.janeTicket; DashSamples.namelessTicket])
                         (DashSamples.world 200 true)))))
  = sumList [rowMachineMarkup DashSamples.reversingHost DashSamples.janeTicket;
             rowMachineMarkup DashSamples.reversingHost DashSamples.namelessTicket].
Proof.
  destruct (table_markup_is_sum_of_rows DashSamples.reversingHost
              (Val [DashSamples.janeTicket; DashSamples.namelessTicket])
              (DashSamples.world 200 true)) as (_ & H).
  apply (H _ _ eq_refl). apply Permutation_sym.
  apply (Permutation_rev [DashSamples.janeTicket; DashSamples.namelessTicket]).
Defined.

Ltac run_more :=
  cbv beta iota zeta delta
    [resolveTicket refreshData showTicketDetail closeTicketModal confirm complete
     fetchTickets fetchAnalytics
     updateStats updateCharts updateCategoryChart updateStatusChart updateTable
     tryFinally tryCatch bind ret throw liftE emit getDom modifyDom
     awaitFetch awaitJson console_log console_warn console_error alert setTimeout
     dom net trace].

Ltac dash_simpl :=
  cbn [totalTickets_textContent pendingTickets_textContent classifiedTickets_textContent
       resolvedTickets_textContent categoryChart statusChart ticketsTableBody_innerHTML
       ticketDetails_innerHTML ticketModal_display
       with_stats with_categoryChart with_statusChart with_ticketsTableBody_innerHTML
       with_ticketDetails_innerHTML with_ticketModal_display
       chart_type chart_labels chart_data chart_backgroundColor
       fst snd dom net trace] in *.

Ltac outcome_cases o :=
  let r := fresh "r" in
  let e := fresh "e" in
  let v := fresh "v" in
  destruct o as [r | e | ];
  [ destruct (ok r); [destruct (json r) as [v | ] | ] | | ].

(** The two fetch helpers complete as [refreshData] combines them. *)
Lemma fetch_helpers_settle (d : Page) (env : Environment) (t : list Event) :
  fetchTickets (MkWorld d env t)
  = (settle "Failed to fetch tickets" (tickets_api env),
     MkWorld d env (EvFetch ticketsRequest :: t)) /\
  fetchAnalytics (MkWorld d env t)
  = (settle "Failed to fetch analytics" (analytics_api env),
     MkWorld d env (EvFetch analyticsRequest :: t)).
Proof.
  split; run_more; unfold settle.
  - outcome_cases (tickets_api env); reflexivity.
  - outcome_cases (analytics_api env); reflexivity.
Qed.

(** Each fetch helper sends its one GET request and leaves the page as
    it is.  It returns the parsed body of an [ok] response, rejects with
    its own message for a response that is not [ok], also when that
    response carries a body, and passes the error of a rejected request
    on. *)
Theorem fetch_helpers_send_one_request :
  forall (w : World Page Environment),
    let tickets := fetchTickets w in
    let analytics := fetchAnalytics w in
    (dom (snd tickets) = dom w /\ newEvents w (snd tickets) = [EvFetch ticketsRequest] /\
     dom (snd analytics) = dom w /\
     newEvents w (snd analytics) = [EvFetch analyticsRequest]) /\
    (forall v, answered (tickets_api (net w)) = Some v -> fst tickets = Normal v) /\
    (forall v, answered (analytics_api (net w)) = Some v -> fst analytics = Normal v) /\
    (forall r, tickets_api (net w) = Fulfilled r -> ok r = false ->
       fst tickets = Throw (Error "Failed to fetch tickets")) /\
    (forall r, analytics_api (net w) = Fulfilled r -> ok r = false ->
       fst analytics = Throw (Error "Failed to fetch analytics")) /\
    (forall e, tickets_api (net w) = Rejected e -> fst tickets = Throw e) /\
    (forall e, analytics_api (net w) = Rejected e -> fst analytics = Throw e).
Proof.
  intros [d env t]. cbn zeta. cbn [dom net].
  destruct (fetch_helpers_settle d env t) as [-> ->]. cbn [fst snd dom].
  unfold answered, settle.
  split; [new_events; repeat split | ].
  split; [intros v; destruct (tickets_api env) as [r | e | ]; try discriminate;
          destruct (ok r); try discriminate; cbn [negb]; intros ->; reflexivity | ].
  split; [intros v; destruct (analytics_api env) as [r | e | ]; try discriminate;
          destruct (ok r); try discriminate; cbn [negb]; intros ->; reflexivity | ].
  split; [intros r -> ->; reflexivity | ].
  split; [intros r -> ->; reflexivity | ].
  split; intros e ->; reflexivity.
Qed.

(** Witness: the back end answers both requests. *)
Lemma fetch_helpers_send_one_request_witness :
  fst (fetchAnalytics (DashSamples.world 200 true)) = Normal DashSamples.snapshot.
Proof.
  apply (fetch_helpers_send_one_request (DashSamples.world 200 true)).
  reflexivity.
Defined.

Ltac refresh_cases d env :=
  destruct d as [s1 s2 s3 s4 [cc | ] [sc | ] tb td md];
  run_more; unfold settle, promiseAll2, failedFetch, answered;
  outcome_cases (tickets_api env); outcome_cases (analytics_api env);
  cbn [negb orb]; do 3 (run_more; dash_simpl).

(** [refreshData] is all or nothing.  It lets no error escape and sends
    its two requests whatever the answers; it never touches the ticket
    modal.  When one of the two fetches fails (also while the other is
    still pending) the page stays as it was and the error is logged once;
    only when both come back are the cards and the table rewritten, from
    the answers. *)
Theorem refreshData_is_all_or_nothing :
  forall (h : Host) (w : World Page Environment),
    let after := refreshData h w in
    (forall e, fst after <> Throw e) /\
    fetchesOf (newEvents w (snd after)) = [ticketsRequest; analyticsRequest] /\
    alertsOf (newEvents w (snd after)) = [] /\
    ticketDetails_innerHTML (dom (snd after)) = ticketDetails_innerHTML (dom w) /\
    ticketModal_display (dom (snd after)) = ticketModal_display (dom w) /\
    (failedFetch (tickets_api (net w)) = true \/
     failedFetch (analytics_api (net w)) = true ->
       fst after = Normal tt /\ dom (snd after) = dom w /\
       exists e,
         newEvents w (snd after)
         = [EvFetch ticketsRequest; EvFetch analyticsRequest;
            EvConsoleError [ArgStr "Error fetching dashboard data:"; ArgErr e]]) /\
    (forall tickets analytics,
       answered (tickets_api (net w)) = Some tickets ->
       answered (analytics_api (net w)) = Some analytics ->
       fst after = Normal tt /\
       ticketsTableBody_innerHTML (dom (snd after)) = tableHtml h tickets /\
       totalTickets_textContent (dom (snd after))
       = numText (orZero (total_tickets analytics)) /\
       pendingTickets_textContent (dom (snd after))
       = numText (countOrZero (status_counts analytics) "pending") /\
       classifiedTickets_textContent (dom (snd after))
       = numText (countOrZero (status_counts analytics) "classified") /\
       resolvedTickets_textContent (dom (snd after))
       = numText (countOrZero (status_counts analytics) "resolved")).
Proof.
  intros h [d env t]. cbn zeta. cbn [dom net].
  refresh_cases d env; new_events;
    (split; [intros err; discriminate | ]);
    (split; [reflexivity | ]); (split; [reflexivity | ]);
    (split; [reflexivity | ]); (split; [reflexivity | ]);
    (split;
     [ intros [Hf | Hf]; try discriminate Hf;
       (split; [reflexivity | split; [reflexivity | eexists; reflexivity]])
     | intros tickets analytics Ht Ha; try discriminate Ht; try discriminate Ha;
       injection Ht as <-; injection Ha as <-; repeat split ]).
Qed.

(** Witness: the analytics end point is down while the tickets come
    back. *)
Lemma refreshData_is_all_or_nothing_witness :
  dom (snd (refreshData DashSamples.plainHost
              (MkWorld DashSamples.emptyPage
                 (MkEnvironment
                    (Fulfilled (MkResponse 200 (Some (Val [DashSamples.janeTicket]))))
                    (Rejected (TypeError "Failed to fetch"))
                    (fun _ => Pending) (fun _ => Pending) true false) [])))
  = DashSamples.emptyPage.
Proof.
  apply (refreshData_is_all_or_nothing DashSamples.plainHost
           (MkWorld DashSamples.emptyPage
              (MkEnvironment
                 (Fulfilled (MkResponse 200 (Some (Val [DashSamples.janeTicket]))))
                 (Rejected (TypeError "Failed to fetch"))
                 (fun _ => Pending) (fun _ => Pending) true false) [])).
  right. reflexivity.
Defined.

(** A refresh keeps the charts consistent.  After a refresh whose two
    fetches came back both charts exist, each with as many labels as
    values and colours, one per entry of its counts; a chart that existed
    keeps its type, a new one is a doughnut for the categories and a bar
    chart for the statuses. *)
Theorem refreshData_keeps_charts_consistent :
  forall (h : Host) (w : World Page Environment) tickets analytics,
    answered (tickets_api (net w)) = Some tickets ->
    answered (analytics_api (net w)) = Some analytics ->
    exists c s,
      categoryChart (dom (snd (refreshData h w))) = Some c /\
      statusChart (dom (snd (refreshData h w))) = Some s /\
      chart_labels c = map fst (orEmpty (category_counts analytics)) /\
      chart_data c = map snd (orEmpty (category_counts analytics)) /\
      length (chart_backgroundColor c) = length (chart_labels c) /\
      length (chart_data c) = length (chart_labels c) /\
      chart_data s = map snd (orEmpty (status_counts analytics)) /\
      length (chart_labels s) = length (chart_data s) /\
      length (chart_backgroundColor s) = length (chart_data s) /\
      chart_type c = match categoryChart (dom w) with
                     | Some c0 => chart_type c0
                     | None => "doughnut"
                     end /\
      chart_type s = match statusChart (dom w) with
                     | Some s0 => chart_type s0
                     | None => "bar"
                     end.
Proof.
  intros h [d env t] tickets analytics. cbn [dom net].
  refresh_cases d env; intros Ht Ha; try discriminate Ht; try discriminate Ha;
    injection Ht as <-; injection Ha as <-;
    do 2 eexists; (split; [reflexivity | ]); (split; [reflexivity | ]);
    cbn [chart_labels chart_data chart_backgroundColor chart_type];
    rewrite ?length_map; repeat split.
Qed.

(** Witness: the first refresh of the sample back end. *)
Lemma refreshData_keeps_charts_consistent_witness :
  exists c,
    categoryChart (dom (snd (refreshData DashSamples.plainHost
                               (DashSamples.world 200 true)))) = Some c /\
    chart_labels c = ["PTO"].
Proof.
  destruct (refreshData_keeps_charts_consistent DashSamples.plainHost
              (DashSamples.world 200 true) (Val [DashSamples.janeTicket])
              DashSamples.snapshot eq_refl eq_refl)
    as (c & s & Hc & _ & Hlabels & _).
  exists c. split; [exact Hc | exact Hlabels].
Defined.

(** [showTicketDetail] lets no error escape and sends one request, the
    GET of the ticket.  When that fetch fails (rejected, answered with a
    response that is not [ok], or with a body that does not parse) the
    page stays as it was, the modal is not opened, and the error is
    logged once.  When the ticket comes back the detail markup is
    rewritten from it and the modal is opened; the table, the cards and
    the charts are not touched. *)
Theorem showTicketDetail_opens_only_on_success :
  forall (h : Host) (ticketId : string) (w : World Page Environment),
    let after := showTicketDetail h ticketId w in
    (forall e, fst after <> Throw e) /\
    fetchesOf (newEvents w (snd after))
    = [MkRequest ("/api/tickets/" +:+ ticketId) "GET" [] None] /\
    (failedFetch (ticket_api (net w) ticketId) = true ->
       fst after = Normal tt /\ dom (snd after) = dom w /\
       exists e,
         newEvents w (snd after)
         = [EvFetch (ticketRequest ticketId);
            EvConsoleError [ArgStr "Error fetching ticket details:"; ArgErr e]]) /\
    (forall ticket,
       answered (ticket_api (net w) ticketId) = Some ticket ->
       fst after = Normal tt /\
       dom (snd after)
       = with_ticketModal_display "flex"
           (with_ticketDetails_innerHTML (ticketDetail h ticket) (dom w))).
Proof.
  intros h ticketId [d env t]. cbn zeta. cbn [dom net].
  run_more. unfold failedFetch, answered.
  outcome_cases (ticket_api env ticketId); cbn [negb orb]; run_more; dash_simpl;
    new_events;
    (split; [intros err; discriminate | ]); (split; [reflexivity | ]);
    (split;
     [ intros Hf; try discriminate Hf;
       (split; [reflexivity | split; [reflexivity | eexists; reflexivity]])
     | intros ticket Ht; try discriminate Ht; injection Ht as <-; split; reflexivity ]).
Qed.

(** Witness: the ticket is unknown, the back end answers 404. *)
Lemma showTicketDetail_opens_only_on_success_witness :
  dom (snd (showTicketDetail DashSamples.plainHost "no-such-ticket"
              (MkWorld DashSamples.emptyPage
                 (MkEnvironment Pending Pending
                    (fun _ => Fulfilled (MkResponse 404 None)) (fun _ => Pending) true false)
                 [])))
  = DashSamples.emptyPage.
Proof.
  apply (showTicketDetail_opens_only_on_success DashSamples.plainHost "no-such-ticket"
           (MkWorld DashSamples.emptyPage
              (MkEnvironment Pending Pending
                 (fun _ => Fulfilled (MkResponse 404 None)) (fun _ => Pending) true false)
              [])).
  reflexivity.
Defined.

Ltac run_res :=
  cbv beta iota zeta delta
    [resolveTicket closeTicketModal confirm
     tryFinally tryCatch bind ret throw liftE emit getDom modifyDom
     awaitFetch awaitJson console_log console_warn console_error alert setTimeout
     dom net trace].

(** A declined confirmation ends the resolve action at once: no request
    is sent, no alert is raised, the page stays as it was; the dialog is
    all that happened. *)
Theorem resolveTicket_declined_does_nothing :
  forall (h : Host) (ticketId : string) (w : World Page Environment),
    confirm_answer (net w) = false ->
    let after := resolveTicket h ticketId w in
    fst after = Normal tt /\
    dom (snd after) = dom w /\
    newEvents w (snd after)
    = [EvConfirm "Are you sure you want to mark this ticket as resolved?"].
Proof.
  intros h ticketId [d env t] Hno. cbn zeta. cbn [dom net] in *.
  run_res. rewrite Hno. cbn [negb]. run_res. cbn [fst snd dom]. new_events.
  repeat split.
Qed.

(** Witness: the user declines. *)
Lemma resolveTicket_declined_does_nothing_witness :
  dom (snd (resolveTicket DashSamples.plainHost "3f2a9c1e" (DashSamples.world 200 false)))
  = DashSamples.emptyPage.
Proof.
  apply (resolveTicket_declined_does_nothing DashSamples.plainHost "3f2a9c1e"
           (DashSamples.world 200 false) eq_refl).
Defined.

(** [refreshData] appends to the log, raises no alert, and completes or
    stays suspended. *)
Lemma refreshData_frame (h : Host) (d : Page) (env : Environment) (t : list Event) :
  exists c d' new,
    refreshData h (MkWorld d env t) = (c, MkWorld d' env (new ++ t)) /\
    (c = Normal tt \/ c = Hang) /\
    alertsOf (rev new) = [].
Proof.
  refresh_cases d env;
    match goal with
    | |- exists c d' new, (?c0, MkWorld ?d0 _ ?t0) = _ /\ _ =>
        let new := trace_prefix t0 t in exists c0, d0, new
    end;
    (split; [reflexivity | split; [auto | reflexivity]]).
Qed.

(** A confirmed resolve action lets no error escape and raises one alert
    when it completes: the success message when the answer was [ok], the
    failure message otherwise, also when the request itself was rejected,
    in which case the page stays as it was.  The body of the answer is
    not read, and a refresh that fails after an [ok] answer still ends in
    the success message.  While the action is suspended no alert is
    raised. *)
Theorem resolveTicket_raises_one_alert :
  forall (h : Host) (ticketId : string) (w : World Page Environment),
    confirm_answer (net w) = true ->
    let after := resolveTicket h ticketId w in
    (forall e, fst after <> Throw e) /\
    (fst after = Normal tt ->
       alertsOf (newEvents w (snd after))
       = [match resolve_api (net w) ticketId with
          | Fulfilled r => if ok r then resolvedMessage else resolveFailedMessage
          | Rejected _ | Pending => resolveFailedMessage
          end]) /\
    (fst after = Hang -> alertsOf (newEvents w (snd after)) = []) /\
    (forall e, resolve_api (net w) ticketId = Rejected e ->
       fst after = Normal tt /\ dom (snd after) = dom w /\
       fetchesOf (newEvents w (snd after)) = [resolvePost ticketId]).
Proof.
  intros h ticketId [d env t] Hyes. cbn zeta. cbn [dom net] in *.
  run_res. rewrite Hyes. cbn [negb]. run_res.
  destruct (resolve_api env ticketId) as [r | e | ]; run_res.
  - destruct (ok r); cbn [negb]; run_res.
    + destruct (refreshData_frame h (with_ticketModal_display "none" d) env
                  (EvFetch (resolveRequest ticketId)
                   :: EvConfirm "Are you sure you want to mark this ticket as resolved?"
                   :: t))
        as (c & d' & new & -> & [-> | ->] & Hnew); cbn [fst snd dom].
      * change (EvFetch (resolveRequest ticketId)
                :: EvConfirm "Are you sure you want to mark this ticket as resolved?" :: t)
          with ([EvFetch (resolveRequest ticketId);
                 EvConfirm "Are you sure you want to mark this ticket as resolved?"] ++ t).
        rewrite app_assoc.
        match goal with
        | |- context [EvAlert ?m :: ?x ++ t] =>
            change (EvAlert m :: x ++ t) with ((EvAlert m :: x) ++ t)
        end.
        rewrite newEvents_intro. cbn [rev]. rewrite rev_app_distr, !alertsOf_app, Hnew.
        split; [intros err; discriminate | ].
        split; [intros _; reflexivity | ].
        split; [intros Hc; discriminate Hc | intros err Hr; discriminate Hr].
      * change (EvFetch (resolveRequest ticketId)
                :: EvConfirm "Are you sure you want to mark this ticket as resolved?" :: t)
          with ([EvFetch (resolveRequest ticketId);
                 EvConfirm "Are you sure you want to mark this ticket as resolved?"] ++ t).
        rewrite app_assoc.
        rewrite newEvents_intro. rewrite rev_app_distr, !alertsOf_app, Hnew.
        split; [intros err; discriminate | ].
        split; [intros Hc; discriminate Hc | ].
        split; [intros _; reflexivity | intros err Hr; discriminate Hr].
    + cbn [fst snd dom]. new_events.
      split; [intros err; discriminate | ].
      split; [intros _; reflexivity | ].
      split; [intros Hc; discriminate Hc | intros err Hr; discriminate Hr].
  - cbn [fst snd dom]. new_events.
    split; [intros err; discriminate | ].
    split; [intros _; reflexivity | ].
    split; [intros Hc; discriminate Hc | intros err _; repeat split].
  - cbn [fst snd dom]. new_events.
    split; [intros err; discriminate | ].
    split; [intros Hc; discriminate Hc | ].
    split; [intros _; reflexivity | intros err Hr; discriminate Hr].
Qed.

(** Witness: the request to resolve is rejected by the network. *)
Lemma resolveTicket_raises_one_alert_witness :
  alertsOf (newEvents
    (MkWorld DashSamples.emptyPage
       (MkEnvironment Pending Pending (fun _ => Pending)
          (fun _ => Rejected (TypeError "Failed to fetch")) true false) [])
    (snd (resolveTicket DashSamples.plainHost "3f2a9c1e"
       (MkWorld DashSamples.emptyPage
          (MkEnvironment Pending Pending (fun _ => Pending)
             (fun _ => Rejected (TypeError "Failed to fetch")) true false) []))))
  = [resolveFailedMessage].
Proof.
  apply (resolveTicket_raises_one_alert DashSamples.plainHost "3f2a9c1e"
           (MkWorld DashSamples.emptyPage
              (MkEnvironment Pending Pending (fun _ => Pending)
                 (fun _ => Rejected (TypeError "Failed to fetch")) true false) [])
           eq_refl).
  reflexivity.
Defined.

End DashboardMoreFacts.
